(** * The sales dashboard: filter pass, KPIs, editing and the login gate

    A shallow embedding of [app.py] and [app_no_auth.py].  The two scripts
    share everything but the product filter and the login gate, so the shared
    blocks are embedded once and each script gets a module of its own for what
    differs.

    Modelling decisions, all of them about pandas and Streamlit rather than
    about the scripts:
    - a [DataFrame] is an ordered list of named columns, every column a
      [Series] of one dtype; row labels are left out, since every series the
      scripts combine comes from one frame and is aligned by position;
    - [float64] money columns hold exact amounts in hundredths ([Z]); the seed
      rounds prices to two decimals and the editor steps by 0.01.  Scalars
      that pandas returns as floats ([mean], the completion rate) are exact
      rationals, with [NaN] for the mean of nothing;
    - frames live in a heap and are named by locations, so that [.copy()],
      indexing by a mask (both allocate) and column assignment (in place) keep
      the aliasing the scripts rely on;
    - what the libraries decide is taken as a parameter: the rendering of a
      finite number by a format spec, the order [sort_values] gives to equal
      values, the random draws of the seed, and what the user typed in a data
      editor. *)

From Stdlib Require Import ZArith QArith String List Lia Sorted Permutation OrdersEx.
From stdpp Require Import base list gmap strings.

Local Open Scope Z_scope.
Local Open Scope string_scope.
Local Open Scope list_scope.

(** ** Exceptions and the two monads *)

Inductive exn :=
| KeyError (key : string)
| AttributeError (attr : string)
| TypeError
| ZeroDivisionError
| RerunException.

Inductive outcome (A : Type) :=
| Ok (a : A)
| Raise (e : exn).
Arguments Ok {A} a.
Arguments Raise {A} e.

Definition obind {A B} (c : outcome A) (k : A -> outcome B) : outcome B :=
  match c with
  | Ok a => k a
  | Raise e => Raise e
  end.

Notation "'let?' x ':=' c 'in' k" := (obind c (fun x => k))
  (at level 10, x name, c at level 100, k at level 200).

(** ** pandas: series and frames *)

(** A column.  Only the dtypes the dashboard's frames have are modelled. *)
Inductive Series :=
| ObjectS (values : list string)     (* object: Python strings *)
| Int64S (values : list Z)           (* int64 *)
| Float64S (values : list Z)         (* float64, in hundredths *)
| DatetimeS (values : list Z).       (* datetime64, in days since 1970-01-01 *)

Inductive dtype := object | int64 | float64 | datetime64.

Definition DataFrame := list (string * Series).

Definition dtype_of (s : Series) : dtype :=
  match s with
  | ObjectS _ => object
  | Int64S _ => int64
  | Float64S _ => float64
  | DatetimeS _ => datetime64
  end.

Definition series_len (s : Series) : nat :=
  match s with
  | ObjectS l => length l
  | Int64S l | Float64S l | DatetimeS l => length l
  end.

(** [df.dtypes]: the column labels with their dtypes, in column order. *)
Definition dtypes (df : DataFrame) : list (string * dtype) :=
  map (fun c => (fst c, dtype_of (snd c))) df.

(** [len(df)] *)
Definition nrows (df : DataFrame) : nat :=
  match df with
  | [] => 0%nat
  | (_, s) :: _ => series_len s
  end.

Fixpoint get_column (df : DataFrame) (name : string) : option Series :=
  match df with
  | [] => None
  | (n, s) :: rest => if String.eqb n name then Some s else get_column rest name
  end.

(** [df[name]] *)
Definition getitem (df : DataFrame) (name : string) : outcome Series :=
  match get_column df name with
  | Some s => Ok s
  | None => Raise (KeyError name)
  end.

(** [df[name] = s]: an existing column is overwritten where it stands, a new
    one is appended. *)
Fixpoint set_column (df : DataFrame) (name : string) (s : Series) : DataFrame :=
  match df with
  | [] => [(name, s)]
  | (n, c) :: rest =>
      if String.eqb n name then (n, s) :: rest else (n, c) :: set_column rest name s
  end.

(** Keeping the positions a boolean mask marks. *)
Fixpoint mask_list {A} (m : list bool) (l : list A) : list A :=
  match m, l with
  | b :: m', x :: l' => if b then x :: mask_list m' l' else mask_list m' l'
  | _, _ => []
  end.

Definition series_mask (m : list bool) (s : Series) : Series :=
  match s with
  | ObjectS l => ObjectS (mask_list m l)
  | Int64S l => Int64S (mask_list m l)
  | Float64S l => Float64S (mask_list m l)
  | DatetimeS l => DatetimeS (mask_list m l)
  end.

(** [df[mask]] *)
Definition frame_mask (m : list bool) (df : DataFrame) : DataFrame :=
  map (fun c => (fst c, series_mask m (snd c))) df.

(** [s.isin(values)] for a list of strings: a number is never one of them. *)
Definition isin (s : Series) (values : list string) : list bool :=
  match s with
  | ObjectS l => map (fun x => bool_decide (x ∈ values)) l
  | Int64S l | Float64S l | DatetimeS l => map (fun _ => false) l
  end.

(** [s == v] for a string [v] *)
Definition series_eq (s : Series) (v : string) : list bool :=
  match s with
  | ObjectS l => map (fun x => String.eqb x v) l
  | Int64S l | Float64S l | DatetimeS l => map (fun _ => false) l
  end.

Fixpoint zip_mul (a b : list Z) : list Z :=
  match a, b with
  | x :: a', y :: b' => x * y :: zip_mul a' b'
  | _, _ => []
  end.

(** [a * b] for an int64 and a float64 series; the other pairs of dtypes do not
    occur in the dashboard and are refused here. *)
Definition series_mul (a b : Series) : outcome Series :=
  match a, b with
  | Int64S x, Float64S y => Ok (Float64S (zip_mul x y))
  | Float64S x, Int64S y => Ok (Float64S (zip_mul x y))
  | _, _ => Raise TypeError
  end.

Definition zsum (l : list Z) : Z := fold_right Z.add 0 l.

(** int64 arithmetic wraps around. *)
Definition wrap64 (z : Z) : Z := (z + 2 ^ 63) mod 2 ^ 64 - 2 ^ 63.

(** [s.sum()]: an int64 for int64, hundredths for float64; 0 for no rows. *)
Definition series_sum (s : Series) : outcome Z :=
  match s with
  | Int64S l => Ok (wrap64 (zsum l))
  | Float64S l => Ok (zsum l)
  | _ => Raise TypeError
  end.

(** A Python float: a finite value or NaN. *)
Inductive pyfloat :=
| NaN
| Fin (q : Q).

(** [s.mean()]: NaN for no rows. *)
Definition series_mean (s : Series) : outcome pyfloat :=
  match s with
  | Int64S [] | Float64S [] => Ok NaN
  | Int64S l => Ok (Fin (inject_Z (zsum l) / inject_Z (Z.of_nat (length l)))%Q)
  | Float64S l => Ok (Fin (Qmake (zsum l) 100 / inject_Z (Z.of_nat (length l)))%Q)
  | _ => Raise TypeError
  end.

(** Python's [a / b] on two [int]s. *)
Definition truediv (a b : Z) : outcome Q :=
  if Z.eqb b 0 then Raise ZeroDivisionError else Ok (inject_Z a / inject_Z b)%Q.

Definition list_eqb {A} (eqb : A -> A -> bool) : list A -> list A -> bool :=
  fix go l1 l2 :=
    match l1, l2 with
    | [], [] => true
    | x :: l1', y :: l2' => eqb x y && go l1' l2'
    | _, _ => false
    end.

Definition series_equals (a b : Series) : bool :=
  match a, b with
  | ObjectS x, ObjectS y => list_eqb String.eqb x y
  | Int64S x, Int64S y => list_eqb Z.eqb x y
  | Float64S x, Float64S y => list_eqb Z.eqb x y
  | DatetimeS x, DatetimeS y => list_eqb Z.eqb x y
  | _, _ => false
  end.

(** [a.equals(b)]: the same column labels in the same order, the same dtypes
    and the same value in every cell. *)
Definition equals (a b : DataFrame) : bool :=
  list_eqb (fun c d => String.eqb (fst c) (fst d) && series_equals (snd c) (snd d)) a b.

(** *** groupby, sort_values, head *)

(** The group keys: each value once, in ascending order ([groupby] sorts its
    keys). *)
Fixpoint insert_key (k : string) (l : list string) : list string :=
  match l with
  | [] => [k]
  | x :: rest =>
      match String.compare k x with
      | Lt => k :: x :: rest
      | Eq => x :: rest
      | Gt => x :: insert_key k rest
      end
  end.

Definition group_keys (keys : list string) : list string :=
  fold_right insert_key [] keys.

(** The values standing at the positions where [keys] holds [k]. *)
Fixpoint values_of (k : string) (keys : list string) (vals : list Z) : list Z :=
  match keys, vals with
  | x :: keys', v :: vals' =>
      if String.eqb x k then v :: values_of k keys' vals' else values_of k keys' vals'
  | _, _ => []
  end.

(** [df.groupby(key)[col].sum()]: a series of sums labelled by group key. *)
Definition groupby_sum (df : DataFrame) (key col : string) : outcome (list (string * Z)) :=
  let? keys := getitem df key in
  let? vals := getitem df col in
  match keys, vals with
  | ObjectS ks, Float64S vs =>
      Ok (map (fun k => (k, zsum (values_of k ks vs))) (group_keys ks))
  | _, _ => Raise TypeError
  end.

(** ** The heap of frames and the session *)

Definition loc := positive.

(** What a run puts on the page: the login messages, the KPI cards, the
    top-products table and the export.  Titles, charts and tabs are left
    out. *)
Inductive element :=
| st_error (body : string)
| st_warning (body : string)
| st_metric (label value : string)
| st_dataframe (data : list (string * Z))
| st_download_button (data : DataFrame).

(** [sales_data] is [st.session_state.sales_data]: absent, or the location of
    the canonical frame. *)
Record world := World {
  heap : gmap loc DataFrame;
  sales_data : option loc;
  page : list element
}.

Definition M (A : Type) := world -> outcome A * world.

Definition ret {A} (a : A) : M A := fun w => (Ok a, w).

Definition bind {A B} (c : M A) (k : A -> M B) : M B :=
  fun w =>
    match c w with
    | (Ok a, w') => k a w'
    | (Raise e, w') => (Raise e, w')
    end.

Definition lift {A} (o : outcome A) : M A := fun w => (o, w).

Notation "'let*' x ':=' c 'in' k" := (bind c (fun x => k))
  (at level 10, x name, c at level 100, k at level 200).

Definition alloc (df : DataFrame) : M loc :=
  fun w =>
    let l := fresh (dom (heap w)) in
    (Ok l, {| heap := <[l := df]> (heap w); sales_data := sales_data w; page := page w |}).

Definition read (l : loc) : M DataFrame :=
  fun w =>
    match heap w !! l with
    | Some df => (Ok df, w)
    | None => (Raise (AttributeError "object"), w)
    end.

Definition write (l : loc) (df : DataFrame) : M unit :=
  fun w => (Ok tt, {| heap := <[l := df]> (heap w); sales_data := sales_data w; page := page w |}).

(** [st.session_state.sales_data] *)
Definition session_sales_data : M loc :=
  fun w =>
    match sales_data w with
    | Some l => (Ok l, w)
    | None => (Raise (AttributeError "sales_data"), w)
    end.

(** [st.session_state.sales_data = l] *)
Definition set_sales_data (l : loc) : M unit :=
  fun w => (Ok tt, {| heap := heap w; sales_data := Some l; page := page w |}).

Definition render (e : element) : M unit :=
  fun w => (Ok tt, {| heap := heap w; sales_data := sales_data w; page := page w ++ [e] |}).

(** [st.rerun()] stops the run; what was written to the session stays. *)
Definition st_rerun : M unit := fun w => (Raise RerunException, w).

(** [df.copy()]: a new frame with the same data. *)
Definition df_copy (l : loc) : M loc :=
  let* df := read l in alloc df.

(** [df[name]] *)
Definition df_getitem (l : loc) (name : string) : M Series :=
  let* df := read l in lift (getitem df name).

(** [df[mask]]: a new frame. *)
Definition df_mask (l : loc) (m : list bool) : M loc :=
  let* df := read l in alloc (frame_mask m df).

(** [df[name] = s]: the frame itself is changed. *)
Definition df_setitem (l : loc) (name : string) (s : Series) : M unit :=
  let* df := read l in write l (set_column df name s).

(** ** Streamlit widgets and what the user and the generator put in *)

(** [st.radio(label, options)]: the option the user picked, the first one
    until they pick. *)
Definition st_radio (options : list string) (choice : nat) : string :=
  nth choice options (hd "" options).

(** The six arrays [np.random] draws for the seed, as streams. *)
Record Draws := {
  product_draw : nat -> nat;
  region_draw : nat -> nat;
  units_draw : nat -> nat;
  price_draw : nat -> nat;
  status_draw : nat -> nat;
  rating_draw : nat -> nat
}.

Record inputs := {
  in_authentication_status : option bool;      (* app.py: what the login left *)
  in_draws : Draws;
  in_products : list string;                   (* app_no_auth.py: "Select Products" *)
  in_regions : list string;                    (* "Select Regions" *)
  in_status : nat;                             (* "Order Status" *)
  in_show_raw_data : bool;                     (* "Show Raw Data Tab" *)
  in_master_edit : DataFrame -> DataFrame;     (* the user's edits in "Data Editor" *)
  in_new_edit : DataFrame -> DataFrame;        (* the user's edits in "New Table" *)
  in_export : bool                             (* the export button *)
}.

(** [np.random.choice(options, size)] *)
Definition random_choice (options : list string) (draw : nat -> nat) (size : nat) : list string :=
  map (fun i => nth (draw i mod length options) options "") (seq 0 size).

(** [np.random.randint(low, high, size)] *)
Definition random_randint (low high : Z) (draw : nat -> nat) (size : nat) : list Z :=
  map (fun i => low + Z.of_nat (draw i) mod (high - low)) (seq 0 size).

(** [np.random.uniform(low, high, size).round(2)], in hundredths *)
Definition random_uniform_round2 (low high : Z) (draw : nat -> nat) (size : nat) : list Z :=
  map (fun i => 100 * low + Z.of_nat (draw i) mod (100 * (high - low) + 1)) (seq 0 size).

(** [pd.date_range(start, periods)], one day apart *)
Definition date_range (start : Z) (periods : nat) : list Z :=
  map (fun i => start + Z.of_nat i) (seq 0 periods).

(** 2024-01-01 *)
Definition start_date : Z := 19723.

(** ** The blocks of [main] that the two scripts share *)

(** SESSION STATE INITIALIZATION (app.py 37-48, app_no_auth.py 26-37) *)
Definition new_sales_data (d : Draws) : DataFrame :=
  let dates := date_range start_date 100 in
  let products := ["Laptop"; "Mouse"; "Monitor"; "Headset"; "Printer"] in
  let regions := ["North"; "South"; "East"; "West"] in
  [ ("Date", DatetimeS dates);
    ("Product", ObjectS (random_choice products (product_draw d) 100));
    ("Region", ObjectS (random_choice regions (region_draw d) 100));
    ("Units Sold", Int64S (random_randint 1 50 (units_draw d) 100));
    ("Unit Price", Float64S (random_uniform_round2 20 1500 (price_draw d) 100));
    ("Status", ObjectS (random_choice ["Completed"; "Pending"; "Cancelled"] (status_draw d) 100));
    ("Rating", Int64S (random_randint 1 6 (rating_draw d) 100)) ].

Definition session_state_initialization (d : Draws) : M unit :=
  fun w =>
    match sales_data w with
    | None => (let* l := alloc (new_sales_data d) in set_sales_data l) w
    | Some _ => (Ok tt, w)
    end.

(** [status_filter = st.radio("Order Status", ["All", "Completed", "Pending"])] *)
Definition status_filter (inp : inputs) : string :=
  st_radio ["All"; "Completed"; "Pending"] (in_status inp).

(** KPIs (app.py 84-87, app_no_auth.py 99-102) *)
Record KPIs := {
  total_revenue : Z;
  total_units : Z;
  avg_rating : pyfloat;
  completion_rate : Q
}.

Definition completion_rate_of (df_filtered : DataFrame) : outcome Q :=
  if (0 <? nrows df_filtered)%nat then
    let? status := getitem df_filtered "Status" in
    let completed := frame_mask (series_eq status "Completed") df_filtered in
    let? ratio := truediv (Z.of_nat (nrows completed)) (Z.of_nat (nrows df_filtered)) in
    Ok (ratio * 100)%Q
  else Ok 0%Q.

Definition kpis (df_filtered : DataFrame) : outcome KPIs :=
  let? revenue := getitem df_filtered "Revenue" in
  let? total_revenue := series_sum revenue in
  let? units := getitem df_filtered "Units Sold" in
  let? total_units := series_sum units in
  let? rating := getitem df_filtered "Rating" in
  let? avg_rating := series_mean rating in
  let? completion_rate := completion_rate_of df_filtered in
  Ok {| total_revenue := total_revenue; total_units := total_units;
        avg_rating := avg_rating; completion_rate := completion_rate |}.

(** The editors (app.py 113-131, app_no_auth.py 128-146).  [st.data_editor]
    hands back a new frame: the one it was given with the user's edits. *)
Definition st_data_editor (data : loc) (user_edit : DataFrame -> DataFrame) : M loc :=
  let* df := read data in alloc (user_edit df).

(** [if not edited_df.equals(st.session_state.sales_data):
        st.session_state.sales_data = edited_df
        st.rerun()] *)
Definition reconcile (edited_df : loc) : M unit :=
  let* edited := read edited_df in
  let* sales := session_sales_data in
  let* current := read sales in
  if negb (equals edited current) then
    let* _ := set_sales_data edited_df in st_rerun
  else ret tt.

(** One editor tab: show the canonical frame, reconcile what comes back. *)
Definition editor_tab (user_edit : DataFrame -> DataFrame) : M unit :=
  let* sales := session_sales_data in
  let* edited_df := st_data_editor sales user_edit in
  reconcile edited_df.

(** "Data Editor", then "New Table". *)
Definition editors (inp : inputs) : M unit :=
  let* _ := editor_tab (in_master_edit inp) in
  editor_tab (in_new_edit inp).

Section Dashboard.

(** Python's [format(x, spec)] for a finite number. *)
Variable py_format : string -> Q -> string.

(** [Series.sort_values(ascending=False)] on a series of sums labelled by
    product. *)
Variable sort_values : list (string * Z) -> list (string * Z).

(** The DATA PROCESSING block of the script at hand. *)
Variable filter_pass : inputs -> M loc.

Definition format_float (spec : string) (x : pyfloat) : string :=
  match x with
  | NaN => "nan"
  | Fin q => py_format spec q
  end.

(** The four [metric] cards (app.py 88-91, app_no_auth.py 103-106) *)
Definition metrics (k : KPIs) : M unit :=
  let* _ := render (st_metric "Total Revenue"
                      ("$" ++ py_format ",.2f" (Qmake (total_revenue k) 100))%string) in
  let* _ := render (st_metric "Units Sold" (py_format "," (inject_Z (total_units k)))) in
  let* _ := render (st_metric "Avg Customer Rating"
                      (format_float ".1f" (avg_rating k) ++ " ⭐")%string) in
  render (st_metric "Completion Rate" (py_format ".1f" (completion_rate k) ++ "%")%string).

(** [df.groupby("Product")["Revenue"].sum().sort_values(ascending=False).head(n)]
    (app.py 138, app_no_auth.py 153, where [n] is 5) *)
Definition top_products (n : nat) (df_filtered : DataFrame) : outcome (list (string * Z)) :=
  let? sums := groupby_sum df_filtered "Product" "Revenue" in
  Ok (firstn n (sort_values sums)).

Definition main (inp : inputs) : M unit :=
  let* _ := session_state_initialization (in_draws inp) in
  let* df_filtered := filter_pass inp in
  let* view := read df_filtered in
  let* k := lift (kpis view) in
  let* _ := metrics k in
  let* _ := (if in_show_raw_data inp then editors inp else ret tt) in
  let* top := lift (top_products 5 view) in
  let* _ := render (st_dataframe top) in
  if in_export inp then render (st_download_button view) else ret tt.

End Dashboard.

(** ** app.py *)
Module App.

(** DATA PROCESSING (app.py 71-76) *)
Definition data_processing (selected_regions : list string) (status_filter : string) : M loc :=
  let* sales := session_sales_data in
  let* df_filtered := df_copy sales in
  let* df_filtered :=
    (match selected_regions with
     | [] => ret df_filtered
     | _ :: _ =>
         let* region := df_getitem df_filtered "Region" in
         df_mask df_filtered (isin region selected_regions)
     end) in
  let* df_filtered :=
    (if negb (String.eqb status_filter "All") then
       let* status := df_getitem df_filtered "Status" in
       df_mask df_filtered (series_eq status status_filter)
     else ret df_filtered) in
  let* units := df_getitem df_filtered "Units Sold" in
  let* price := df_getitem df_filtered "Unit Price" in
  let* revenue := lift (series_mul units price) in
  let* _ := df_setitem df_filtered "Revenue" revenue in
  ret df_filtered.

Definition filter_pass (inp : inputs) : M loc :=
  data_processing (in_regions inp) (status_filter inp).

Definition main py_format sort_values := main py_format sort_values filter_pass.

(** AUTHENTICATION LOGIC (app.py 171-176) *)
Definition script py_format sort_values (inp : inputs) : M unit :=
  match in_authentication_status inp with
  | Some true => main py_format sort_values inp
  | Some false => render (st_error "Username/password is incorrect")
  | None => render (st_warning "Please enter your username and password")
  end.

End App.

(** ** app_no_auth.py *)
Module AppNoAuth.

(** DATA PROCESSING (app_no_auth.py 81-91) *)
Definition data_processing (selected_products selected_regions : list string)
    (status_filter : string) : M loc :=
  let* sales := session_sales_data in
  let* df_filtered := df_copy sales in
  let* df_filtered :=
    (match selected_products with
     | [] => ret df_filtered
     | _ :: _ =>
         let* product := df_getitem df_filtered "Product" in
         df_mask df_filtered (isin product selected_products)
     end) in
  let* df_filtered :=
    (match selected_regions with
     | [] => ret df_filtered
     | _ :: _ =>
         let* region := df_getitem df_filtered "Region" in
         df_mask df_filtered (isin region selected_regions)
     end) in
  let* df_filtered :=
    (if negb (String.eqb status_filter "All") then
       let* status := df_getitem df_filtered "Status" in
       df_mask df_filtered (series_eq status status_filter)
     else ret df_filtered) in
  let* units := df_getitem df_filtered "Units Sold" in
  let* price := df_getitem df_filtered "Unit Price" in
  let* revenue := lift (series_mul units price) in
  let* _ := df_setitem df_filtered "Revenue" revenue in
  ret df_filtered.

Definition filter_pass (inp : inputs) : M loc :=
  data_processing (in_products inp) (in_regions inp) (status_filter inp).

Definition main py_format sort_values := main py_format sort_values filter_pass.

End AppNoAuth.

(** ** Reading a frame row by row *)

(** One transaction: a row of the canonical frame. *)
Record Row := {
  Date : Z;
  Product : string;
  Region : string;
  Units_Sold : Z;
  Unit_Price : Z;
  Status : string;
  Rating : Z
}.

(** The columns [pd.DataFrame(data)] gives the canonical frame. *)
Definition sales_dtypes : list (string * dtype) :=
  [ ("Date", datetime64); ("Product", object); ("Region", object);
    ("Units Sold", int64); ("Unit Price", float64); ("Status", object);
    ("Rating", int64) ].

(** The columns of a filtered view: those, and Revenue last. *)
Definition view_dtypes : list (string * dtype) :=
  sales_dtypes ++ [("Revenue", float64)].

(** Every column is as long as the frame. *)
Definition rectangular (df : DataFrame) : Prop :=
  Forall (fun c => series_len (snd c) = nrows df) df.

(** A well-formed canonical frame. *)
Definition sales_frame (df : DataFrame) : Prop :=
  dtypes df = sales_dtypes /\ rectangular df.

(** A well-formed filtered view. *)
Definition view_frame (df : DataFrame) : Prop :=
  dtypes df = view_dtypes /\ rectangular df.

Definition strings_of (s : option Series) : list string :=
  match s with
  | Some (ObjectS l) => l
  | _ => []
  end.

Definition numbers_of (s : option Series) : list Z :=
  match s with
  | Some (Int64S l) | Some (Float64S l) | Some (DatetimeS l) => l
  | _ => []
  end.

Definition row_at (df : DataFrame) (i : nat) : Row :=
  {| Date := nth i (numbers_of (get_column df "Date")) 0;
     Product := nth i (strings_of (get_column df "Product")) "";
     Region := nth i (strings_of (get_column df "Region")) "";
     Units_Sold := nth i (numbers_of (get_column df "Units Sold")) 0;
     Unit_Price := nth i (numbers_of (get_column df "Unit Price")) 0;
     Status := nth i (strings_of (get_column df "Status")) "";
     Rating := nth i (numbers_of (get_column df "Rating")) 0 |}.

(** The rows of a frame, in order (the Revenue column, if any, apart). *)
Definition rows_of (df : DataFrame) : list Row :=
  map (row_at df) (seq 0 (nrows df)).

(** The Revenue column of a view, row by row. *)
Definition revenue_of (df : DataFrame) : list Z :=
  numbers_of (get_column df "Revenue").

(** The canonical frame that holds the given rows. *)
Definition frame_of_rows (rows : list Row) : DataFrame :=
  [ ("Date", DatetimeS (map Date rows));
    ("Product", ObjectS (map Product rows));
    ("Region", ObjectS (map Region rows));
    ("Units Sold", Int64S (map Units_Sold rows));
    ("Unit Price", Float64S (map Unit_Price rows));
    ("Status", ObjectS (map Status rows));
    ("Rating", Int64S (map Rating rows)) ].

(** The view that holds the given rows, each with its Revenue. *)
Definition view_of_rows (rows : list Row) : DataFrame :=
  frame_of_rows rows
  ++ [("Revenue", Float64S (map (fun r => Units_Sold r * Unit_Price r) rows))].

(** *** The filter predicates, row by row *)

(** A multiselect filter as the scripts apply it: an empty selection lets
    every row through. *)
Definition selected (selection : list string) (x : string) : bool :=
  match selection with
  | [] => true
  | _ :: _ => bool_decide (x ∈ selection)
  end.

Definition status_passes (status_filter : string) (r : Row) : bool :=
  String.eqb status_filter "All" || String.eqb (Status r) status_filter.

(** The rows the completion rate counts. *)
Definition completed (r : Row) : bool := String.eqb (Status r) "Completed".

(** app.py *)
Definition passes (selected_regions : list string) (status_filter : string) (r : Row) : bool :=
  selected selected_regions (Region r) && status_passes status_filter r.

(** app_no_auth.py *)
Definition passes_no_auth (selected_products selected_regions : list string)
    (status_filter : string) (r : Row) : bool :=
  selected selected_products (Product r) && selected selected_regions (Region r)
  && status_passes status_filter r.

(** The predicate as the specification words it: membership in the selected
    regions, whatever the selection. *)
Definition spec_passes (selected_regions : list string) (status_filter : string) (r : Row) : Prop :=
  Region r ∈ selected_regions /\ (status_filter = "All" \/ Status r = status_filter).

(** *** Running one block on a session that holds one frame *)

(** A session whose canonical frame is [df], at location 1, and nothing else. *)
Definition session_of (df : DataFrame) : world :=
  {| heap := {[ 1%positive := df ]}; sales_data := Some 1%positive; page := [] |}.

(** The frame a filter pass returns for the canonical frame [df]. *)
Definition filtered_view (pass : M loc) (df : DataFrame) : outcome DataFrame :=
  fst ((let* v := pass in read v) (session_of df)).

(** The canonical frame of a session, if it has one. *)
Definition canonical (w : world) : option DataFrame :=
  match sales_data w with
  | Some l => heap w !! l
  | None => None
  end.

(** *** Sessions a script can reach *)

(** What a data editor does to the frame it shows: rows may be edited, added
    and deleted; the columns and their dtypes stay. *)
Definition editor_contract (user_edit : DataFrame -> DataFrame) : Prop :=
  forall df, dtypes (user_edit df) = dtypes df /\ (rectangular df -> rectangular (user_edit df)).

Definition plausible (inp : inputs) : Prop :=
  editor_contract (in_master_edit inp) /\ editor_contract (in_new_edit inp).

Definition empty_session : world :=
  {| heap := ∅; sales_data := None; page := [] |}.

(** A run starts on an empty page and leaves the session for the next run. *)
Definition run (script : inputs -> M unit) (inp : inputs) (w : world) : world :=
  snd (script inp {| heap := heap w; sales_data := sales_data w; page := [] |}).

Inductive reachable (script : inputs -> M unit) : world -> Prop :=
| reach_start : reachable script empty_session
| reach_run w inp : reachable script w -> plausible inp -> reachable script (run script inp w).

(** What a filter pass has in hand after each statement: the frame it is
    working on, [v], is not one of the frames [h] it started from, and those
    are all still there. *)
Definition working (h : gmap loc DataFrame) (sd : option loc) (pg : list element)
    (v : loc) (df : DataFrame) (w : world) : Prop :=
  sales_data w = sd /\ page w = pg /\ h ⊆ heap w /\ h !! v = None /\ heap w !! v = Some df.

(** The canonical frame, once there is one, is a well-formed sales frame. *)
Definition canonical_ok (w : world) : Prop :=
  forall l, sales_data w = Some l -> exists df, heap w !! l = Some df /\ sales_frame df.

(** A computation that keeps it so, however it ends. *)
Definition keeps {A} (c : M A) : Prop :=
  forall w, canonical_ok w -> canonical_ok (snd (c w)).

(** *** Top products, row by row *)

(** What the dashboard needs of [sort_values(ascending=False)]: the same
    entries, the larger sums first.  The order of equal sums is the
    library's business. *)
Definition sort_contract (sort_values : list (string * Z) -> list (string * Z)) : Prop :=
  forall sums,
    Permutation (sort_values sums) sums
    /\ StronglySorted (fun a b => snd b <= snd a) (sort_values sums).

(** The rows of a view, each with its Revenue. *)
Definition view_rows (view : DataFrame) : list (Row * Z) :=
  combine (rows_of view) (revenue_of view).

(** The total revenue of a product over the rows of a view. *)
Definition product_total (view : DataFrame) (p : string) : Z :=
  zsum (map snd (List.filter (fun x => String.eqb (Product (fst x)) p) (view_rows view))).

(** Ascending order of product names, as [groupby] sorts its keys. *)
Definition name_lt (a b : string) : Prop := String.compare a b = Lt.

(** The position at which a product first occurs. *)
Fixpoint first_seen (p : string) (products : list string) : nat :=
  match products with
  | [] => 0%nat
  | x :: rest => if String.eqb x p then 0%nat else S (first_seen p rest)
  end.

(** The tie-break the specification words: of two products with the same
    total, the one met first in the rows of the view comes first. *)
Definition ties_first_seen (view : DataFrame) (top : list (string * Z)) : Prop :=
  forall i j a b v,
    (i < j)%nat -> top !! i = Some (a, v) -> top !! j = Some (b, v) ->
    (first_seen a (map Product (rows_of view)) < first_seen b (map Product (rows_of view)))%nat.

(** A sort that meets the contract: insertion, larger sums first. *)
Fixpoint insert_desc (x : string * Z) (l : list (string * Z)) : list (string * Z) :=
  match l with
  | [] => [x]
  | y :: rest => if Z.ltb (snd y) (snd x) then x :: y :: rest else y :: insert_desc x rest
  end.

Definition insertion_sort_desc (l : list (string * Z)) : list (string * Z) :=
  fold_right insert_desc [] l.

(** *** Test data *)

Definition row1 : Row :=
  {| Date := 19723; Product := "Mouse"; Region := "North"; Units_Sold := 3;
     Unit_Price := 10000; Status := "Completed"; Rating := 4 |}.
Definition row2 : Row :=
  {| Date := 19724; Product := "Laptop"; Region := "South"; Units_Sold := 1;
     Unit_Price := 30000; Status := "Cancelled"; Rating := 2 |}.
Definition row3 : Row :=
  {| Date := 19725; Product := "Laptop"; Region := "North"; Units_Sold := 2;
     Unit_Price := 5000; Status := "Pending"; Rating := 5 |}.

Definition three_rows : DataFrame := frame_of_rows [row1; row2; row3].

(** Laptop and Mouse both total 300.00, Printer 100.00; the two views hold the
    same rows, Laptop first in one and Mouse first in the other. *)
Definition laptop_300 : Row :=
  {| Date := 19723; Product := "Laptop"; Region := "North"; Units_Sold := 1;
     Unit_Price := 30000; Status := "Completed"; Rating := 4 |}.
Definition mouse_300 : Row :=
  {| Date := 19724; Product := "Mouse"; Region := "North"; Units_Sold := 3;
     Unit_Price := 10000; Status := "Completed"; Rating := 4 |}.
Definition printer_100 : Row :=
  {| Date := 19725; Product := "Printer"; Region := "North"; Units_Sold := 1;
     Unit_Price := 10000; Status := "Completed"; Rating := 4 |}.

Definition laptop_first : DataFrame := view_of_rows [laptop_300; mouse_300; printer_100].
Definition mouse_first : DataFrame := view_of_rows [mouse_300; laptop_300; printer_100].

Definition no_draws : Draws :=
  {| product_draw := fun _ => 0%nat; region_draw := fun _ => 0%nat;
     units_draw := fun _ => 0%nat; price_draw := fun _ => 0%nat;
     status_draw := fun _ => 0%nat; rating_draw := fun _ => 0%nat |}.

(** A user who leaves every widget as it comes up, logged in or not. *)
Definition idle (status : option bool) : inputs :=
  {| in_authentication_status := status; in_draws := no_draws;
     in_products := []; in_regions := []; in_status := 0%nat;
     in_show_raw_data := true; in_master_edit := fun df => df;
     in_new_edit := fun df => df; in_export := false |}.

(** The same user with the status filter on Pending. *)
Definition pending_only : inputs :=
  {| in_authentication_status := Some true; in_draws := no_draws;
     in_products := []; in_regions := []; in_status := 2%nat;
     in_show_raw_data := true; in_master_edit := fun df => df;
     in_new_edit := fun df => df; in_export := false |}.

(** ** More of the scripts *)

(** [Series.unique()]: each value once, in the order of first appearance. *)
Fixpoint unique (l : list string) : list string :=
  match l with
  | [] => []
  | x :: rest => x :: List.filter (fun y => negb (String.eqb y x)) (unique rest)
  end.

(** [st.session_state.sales_data[name].unique()]: the options, and the
    default, of a multiselect of the sidebar (app.py 58-62, app_no_auth.py
    45-56). *)
Definition column_options (df : DataFrame) (name : string) : outcome (list string) :=
  let? column := getitem df name in
  match column with
  | ObjectS values => Ok (unique values)
  | _ => Raise TypeError
  end.

(** The column constraints of "Data Editor" (app.py 115-121, app_no_auth.py
    130-136). *)

(** [a-zA-Z0-9 ] *)
Definition name_char (c : Ascii.ascii) : bool :=
  let n := Ascii.nat_of_ascii c in
  ((48 <=? n) && (n <=? 57) || (65 <=? n) && (n <=? 90) || (97 <=? n) && (n <=? 122)
   || (n =? 32))%nat.

Fixpoint name_chars (s : string) : bool :=
  match s with
  | EmptyString => true
  | String c rest => name_char c && name_chars rest
  end.

(** [validate="^[a-zA-Z0-9 ]+$"] *)
Definition product_name_valid (s : string) : bool :=
  negb (String.eqb s "") && name_chars s.

(** Price: [min_value=0]; Rating: [min_value=1, max_value=5]; Status: one of
    the options; Product: the pattern. *)
Definition column_config_valid (r : Row) : bool :=
  Z.leb 0 (Unit_Price r) && Z.leb 1 (Rating r) && Z.leb (Rating r) 5
  && bool_decide (Status r ∈ ["Completed"; "Pending"; "Cancelled"])
  && product_name_valid (Product r).

(** The row the seed puts at position [i]. *)
Definition seed_row (d : Draws) (i : nat) : Row :=
  {| Date := start_date + Z.of_nat i;
     Product := nth (product_draw d i mod 5) ["Laptop"; "Mouse"; "Monitor"; "Headset"; "Printer"] "";
     Region := nth (region_draw d i mod 4) ["North"; "South"; "East"; "West"] "";
     Units_Sold := 1 + Z.of_nat (units_draw d i) mod 49;
     Unit_Price := 2000 + Z.of_nat (price_draw d i) mod 148001;
     Status := nth (status_draw d i mod 3) ["Completed"; "Pending"; "Cancelled"] "";
     Rating := 1 + Z.of_nat (rating_draw d i) mod 5 |}.

(** The dataset a run works on: the session's, or the seed when the session
    has none yet. *)
Definition dataset_of (inp : inputs) (w : world) : DataFrame :=
  match canonical w with
  | Some df => df
  | None => new_sales_data (in_draws inp)
  end.

(** Nothing comes back changed from the editors of a run: they are not
    shown, or the user left the data as it is. *)
Definition no_edit (inp : inputs) (df : DataFrame) : Prop :=
  in_show_raw_data inp = false
  \/ (in_master_edit inp df = df /\ in_new_edit inp df = df).

(** The four KPI cards, as [main] renders them. *)
Definition cards (py_format : string -> Q -> string) (k : KPIs) : list element :=
  [ st_metric "Total Revenue" ("$" ++ py_format ",.2f" (Qmake (total_revenue k) 100))%string;
    st_metric "Units Sold" (py_format "," (inject_Z (total_units k)));
    st_metric "Avg Customer Rating" (format_float py_format ".1f" (avg_rating k) ++ " ⭐")%string;
    st_metric "Completion Rate" (py_format ".1f" (completion_rate k) ++ "%")%string ].

(** A logged-in user who deletes every row in "Data Editor". *)
Definition delete_all_rows : inputs :=
  {| in_authentication_status := Some true; in_draws := no_draws;
     in_products := []; in_regions := []; in_status := 0%nat;
     in_show_raw_data := true; in_master_edit := fun _ => frame_of_rows [];
     in_new_edit := fun df => df; in_export := true |}.

(** ** generate_keys.py *)
Module GenerateKeys.

(** What the script leaves behind: the lines printed, and how it ended. *)
Record console := { stdout : list string; stderr : list string; exit_code : option Z }.

(** A call into streamlit-authenticator: a value, or an [Exception] with its
    message. *)
Inductive attempt (A : Type) :=
| Returned (a : A)
| Raised (message : string).
Arguments Returned {A} a.
Arguments Raised {A} message.

(** The [except Exception as e] block. *)
Definition on_exception (printed : list string) (e : string) : console :=
  {| stdout := printed;
     stderr := [ (String (Ascii.ascii_of_nat 10) "An error occurred: " ++ e)%string;
                 "This script is designed for streamlit-authenticator v0.3.0 and newer.";
                 "Please upgrade your library by running the following command in your terminal:";
                 "pip install --upgrade streamlit-authenticator" ];
     exit_code := Some 1 |}.

(** The script; [Hasher] is [stauth.Hasher()], and what it returns is its
    [hash] method. *)
Definition script (Hasher : attempt (string -> attempt string)) : console :=
  let passwords_to_hash := ["user123"; "password456"] in
  match Hasher with
  | Raised e => on_exception [] e
  | Returned hash =>
      let printed := [ "---"; "Hashed Passwords Generated Successfully!";
                       "Copy the hashed passwords below and paste them into your config.yaml file.";
                       ""; "For user 'jsmith':" ] in
      match hash (nth 0 passwords_to_hash "") with
      | Raised e => on_exception printed e
      | Returned hashed0 =>
          let printed := printed ++ [ ("  password: '" ++ hashed0 ++ "'")%string; "";
                                      "For user 'rdoe':" ] in
          match hash (nth 1 passwords_to_hash "") with
          | Raised e => on_exception printed e
          | Returned hashed1 =>
              {| stdout := printed ++ [ ("  password: '" ++ hashed1 ++ "'")%string; "---" ];
                 stderr := [];
                 exit_code := None |}
          end
      end
  end.

End GenerateKeys.

(** * Proofs *)

(** ** Lists and masks *)

Lemma map_nth_seq {A} (l : list A) (d : A) :
  map (fun i => nth i l d) (seq 0 (length l)) = l.
Proof.
  induction l as [|x l IH]; [reflexivity|].
  cbn [length seq map nth]. f_equal.
  rewrite <- seq_shift, map_map. exact IH.
Qed.

Lemma map_nth_seq_len {A} (l : list A) (d : A) (n : nat) :
  length l = n -> map (fun i => nth i l d) (seq 0 n) = l.
Proof. intros <-. apply map_nth_seq. Qed.

Lemma nth_map_default {A B} (f : A -> B) (l : list A) (i : nat) (d : A) (d' : B) :
  (i < length l)%nat -> nth i (map f l) d' = f (nth i l d).
Proof.
  intros Hi. rewrite (nth_indep _ d' (f d)) by (rewrite length_map; lia).
  apply map_nth.
Qed.

Lemma mask_list_map {A B} (f : A -> bool) (g : A -> B) (l : list A) :
  mask_list (map f l) (map g l) = map g (List.filter f l).
Proof.
  induction l as [|x l IH]; [reflexivity|].
  cbn [map mask_list List.filter]. destruct (f x); cbn [map]; congruence.
Qed.

Lemma zip_mul_map {A} (f g : A -> Z) (l : list A) :
  zip_mul (map f l) (map g l) = map (fun x => f x * g x) l.
Proof. induction l as [|x l IH]; [reflexivity|]. cbn. now rewrite IH. Qed.

Lemma filter_filter {A} (f g : A -> bool) (l : list A) :
  List.filter g (List.filter f l) = List.filter (fun x => f x && g x) l.
Proof.
  induction l as [|x l IH]; [reflexivity|].
  cbn [List.filter]. destruct (f x); cbn [List.filter andb]; [destruct (g x)|]; congruence.
Qed.

Lemma filter_true {A} (l : list A) : List.filter (fun _ => true) l = l.
Proof. induction l as [|x l IH]; [reflexivity|]. cbn. now rewrite IH. Qed.

(** ** Frames and their rows *)

Lemma sales_frame_inv (df : DataFrame) :
  sales_frame df ->
  exists d p r u c s g,
    df = [ ("Date", DatetimeS d); ("Product", ObjectS p); ("Region", ObjectS r);
           ("Units Sold", Int64S u); ("Unit Price", Float64S c); ("Status", ObjectS s);
           ("Rating", Int64S g) ]
    /\ length p = length d /\ length r = length d /\ length u = length d
    /\ length c = length d /\ length s = length d /\ length g = length d.
Proof.
  intros [Hty Hrect]. unfold rectangular in Hrect.
  do 7 (destruct df as [|[? []] df]; try discriminate Hty).
  destruct df; [|discriminate Hty].
  injection Hty as -> -> -> -> -> -> ->.
  repeat match goal with H : Forall _ (_ :: _) |- _ => inversion H; clear H; subst end.
  cbn in *. do 7 eexists. split; [reflexivity|]. repeat split; assumption.
Qed.

Lemma frame_of_rows_sales (rows : list Row) : sales_frame (frame_of_rows rows).
Proof.
  split; [reflexivity|]. unfold rectangular, frame_of_rows.
  repeat constructor; cbn; now rewrite !length_map.
Qed.

Lemma rows_of_frame_of_rows (rows : list Row) : rows_of (frame_of_rows rows) = rows.
Proof.
  unfold rows_of. cbn [nrows frame_of_rows series_len]. rewrite length_map.
  transitivity (map (fun i => nth i rows row1) (seq 0 (length rows)));
    [|apply map_nth_seq].
  apply map_ext_in. intros i Hi. apply in_seq in Hi.
  unfold row_at. cbn.
  rewrite !(nth_map_default _ _ _ row1) by lia.
  now destruct (nth i rows row1).
Qed.

Lemma sales_frame_rows (df : DataFrame) :
  sales_frame df -> df = frame_of_rows (rows_of df).
Proof.
  intros H. destruct (sales_frame_inv df H) as (d & p & r & u & c & s & g & -> & Hp & Hr & Hu & Hc & Hs & Hg).
  unfold rows_of, frame_of_rows. cbn [nrows series_len].
  rewrite !map_map. unfold row_at. cbn.
  rewrite (map_nth_seq d), !map_nth_seq_len by assumption. reflexivity.
Qed.

Lemma frame_mask_rows (f : Row -> bool) (rows : list Row) :
  frame_mask (map f rows) (frame_of_rows rows) = frame_of_rows (List.filter f rows).
Proof.
  unfold frame_mask, frame_of_rows. cbn [map fst snd series_mask].
  now rewrite !mask_list_map.
Qed.

Lemma set_revenue_rows (rows : list Row) :
  set_column (frame_of_rows rows) "Revenue"
    (Float64S (zip_mul (map Units_Sold rows) (map Unit_Price rows)))
  = view_of_rows rows.
Proof. unfold view_of_rows. rewrite zip_mul_map. reflexivity. Qed.

(** ** The heap *)

Lemma fresh_lookup (h : gmap loc DataFrame) : h !! fresh (dom h) = None.
Proof. apply not_elem_of_dom, is_fresh. Qed.

Lemma copy_working (w : world) (l : loc) (df : DataFrame) :
  heap w !! l = Some df ->
  exists v w', df_copy l w = (Ok v, w') /\ working (heap w) (sales_data w) (page w) v df w'.
Proof.
  intros Hl. unfold df_copy, bind, read. rewrite Hl. unfold alloc. cbn.
  eexists _, _. split; [reflexivity|].
  repeat split; cbn.
  - apply insert_subseteq, fresh_lookup.
  - apply fresh_lookup.
  - apply lookup_insert_eq.
Qed.

Lemma mask_working h sd pg v w (rows : list Row) (name : string) (s : Series)
    (mask : Series -> list bool) (f : Row -> bool) :
  get_column (frame_of_rows rows) name = Some s ->
  mask s = map f rows ->
  working h sd pg v (frame_of_rows rows) w ->
  exists v' w',
    (let* col := df_getitem v name in df_mask v (mask col)) w = (Ok v', w')
    /\ working h sd pg v' (frame_of_rows (List.filter f rows)) w'.
Proof.
  intros Hcol Hmask (Hsd & Hpg & Hsub & Hnew & Hv).
  unfold bind, df_getitem, df_mask, bind, read, lift, getitem. rewrite Hv, Hcol, Hv.
  unfold alloc. eexists _, _. split; [reflexivity|].
  repeat split; cbn [heap sales_data page]; try assumption.
  - apply insert_subseteq_r; [|assumption].
    eapply lookup_weaken_None; [apply fresh_lookup|assumption].
  - eapply lookup_weaken_None; [apply fresh_lookup|assumption].
  - rewrite lookup_insert_eq, Hmask, frame_mask_rows. reflexivity.
Qed.

Lemma revenue_working h sd pg v w (rows : list Row) :
  working h sd pg v (frame_of_rows rows) w ->
  exists w',
    (let* units := df_getitem v "Units Sold" in
     let* price := df_getitem v "Unit Price" in
     let* revenue := lift (series_mul units price) in
     let* _ := df_setitem v "Revenue" revenue in
     ret v) w = (Ok v, w')
    /\ working h sd pg v (view_of_rows rows) w'.
Proof.
  intros (Hsd & Hpg & Hsub & Hnew & Hv).
  assert (Hu : getitem (frame_of_rows rows) "Units Sold" = Ok (Int64S (map Units_Sold rows)))
    by reflexivity.
  assert (Hp : getitem (frame_of_rows rows) "Unit Price" = Ok (Float64S (map Unit_Price rows)))
    by reflexivity.
  unfold bind, df_getitem, df_setitem, bind, read, lift, write, ret.
  repeat first [rewrite Hv | rewrite Hu | rewrite Hp | progress cbn beta iota
                | progress cbn [series_mul]].
  eexists. split; [reflexivity|].
  repeat split; cbn [heap sales_data page]; try assumption.
  - now apply insert_subseteq_r.
  - rewrite lookup_insert_eq. f_equal. apply set_revenue_rows.
Qed.

Lemma bind_ok {A B} (c : M A) (k : A -> M B) (w w' : world) (a : A) :
  c w = (Ok a, w') -> bind c k w = k a w'.
Proof. intros H. unfold bind. now rewrite H. Qed.

Lemma region_branch h sd pg v w (rows : list Row) (selected_regions : list string) :
  working h sd pg v (frame_of_rows rows) w ->
  exists v' w',
    (match selected_regions with
     | [] => ret v
     | _ :: _ =>
         let* region := df_getitem v "Region" in
         df_mask v (isin region selected_regions)
     end) w = (Ok v', w')
    /\ working h sd pg v'
         (frame_of_rows (List.filter (fun r => selected selected_regions (Region r)) rows)) w'.
Proof.
  intros Hw. destruct selected_regions as [|x xs].
  - exists v, w. split; [reflexivity|]. now rewrite filter_true.
  - apply (mask_working h sd pg v w rows "Region" (ObjectS (map Region rows))
             (fun s => isin s (x :: xs))); [reflexivity| |assumption].
    unfold isin. now rewrite map_map.
Qed.

Lemma product_branch h sd pg v w (rows : list Row) (selected_products : list string) :
  working h sd pg v (frame_of_rows rows) w ->
  exists v' w',
    (match selected_products with
     | [] => ret v
     | _ :: _ =>
         let* product := df_getitem v "Product" in
         df_mask v (isin product selected_products)
     end) w = (Ok v', w')
    /\ working h sd pg v'
         (frame_of_rows (List.filter (fun r => selected selected_products (Product r)) rows)) w'.
Proof.
  intros Hw. destruct selected_products as [|x xs].
  - exists v, w. split; [reflexivity|]. now rewrite filter_true.
  - apply (mask_working h sd pg v w rows "Product" (ObjectS (map Product rows))
             (fun s => isin s (x :: xs))); [reflexivity| |assumption].
    unfold isin. now rewrite map_map.
Qed.

Lemma status_branch h sd pg v w (rows : list Row) (status_filter : string) :
  working h sd pg v (frame_of_rows rows) w ->
  exists v' w',
    (if negb (String.eqb status_filter "All") then
       let* status := df_getitem v "Status" in
       df_mask v (series_eq status status_filter)
     else ret v) w = (Ok v', w')
    /\ working h sd pg v' (frame_of_rows (List.filter (status_passes status_filter) rows)) w'.
Proof.
  intros Hw. unfold status_passes. destruct (String.eqb status_filter "All"); cbn [negb orb].
  - exists v, w. split; [reflexivity|]. now rewrite filter_true.
  - apply (mask_working h sd pg v w rows "Status" (ObjectS (map Status rows))
             (fun s => series_eq s status_filter)); [reflexivity| |assumption].
    unfold series_eq. now rewrite map_map.
Qed.

(** The filter pass of app.py, run on any session that holds a canonical
    frame: the view it returns, and what it leaves of the heap. *)
Lemma app_data_processing_run (w : world) (l : loc) (rows : list Row)
    (selected_regions : list string) (status_filter : string) :
  sales_data w = Some l ->
  heap w !! l = Some (frame_of_rows rows) ->
  exists v w',
    App.data_processing selected_regions status_filter w = (Ok v, w')
    /\ working (heap w) (Some l) (page w) v
         (view_of_rows (List.filter (passes selected_regions status_filter) rows)) w'.
Proof.
  intros Hsd Hl. unfold App.data_processing.
  rewrite (bind_ok _ _ w w l) by (unfold session_sales_data; now rewrite Hsd).
  destruct (copy_working w l _ Hl) as (v0 & w0 & E0 & W0). rewrite Hsd in W0.
  rewrite (bind_ok _ _ _ _ _ E0).
  destruct (region_branch _ _ _ _ _ _ selected_regions W0) as (v1 & w1 & E1 & W1).
  rewrite (bind_ok _ _ _ _ _ E1).
  destruct (status_branch _ _ _ _ _ _ status_filter W1) as (v2 & w2 & E2 & W2).
  rewrite (bind_ok _ _ _ _ _ E2).
  rewrite filter_filter in W2.
  destruct (revenue_working _ _ _ _ _ _ W2) as (w3 & E3 & W3).
  exists v2, w3. split; [exact E3|exact W3].
Qed.

(** The same for app_no_auth.py. *)
Lemma no_auth_data_processing_run (w : world) (l : loc) (rows : list Row)
    (selected_products selected_regions : list string) (status_filter : string) :
  sales_data w = Some l ->
  heap w !! l = Some (frame_of_rows rows) ->
  exists v w',
    AppNoAuth.data_processing selected_products selected_regions status_filter w = (Ok v, w')
    /\ working (heap w) (Some l) (page w) v
         (view_of_rows
            (List.filter (passes_no_auth selected_products selected_regions status_filter) rows)) w'.
Proof.
  intros Hsd Hl. unfold AppNoAuth.data_processing.
  rewrite (bind_ok _ _ w w l) by (unfold session_sales_data; now rewrite Hsd).
  destruct (copy_working w l _ Hl) as (v0 & w0 & E0 & W0). rewrite Hsd in W0.
  rewrite (bind_ok _ _ _ _ _ E0).
  destruct (product_branch _ _ _ _ _ _ selected_products W0) as (vp & wp & Ep & Wp).
  rewrite (bind_ok _ _ _ _ _ Ep).
  destruct (region_branch _ _ _ _ _ _ selected_regions Wp) as (v1 & w1 & E1 & W1).
  rewrite (bind_ok _ _ _ _ _ E1).
  rewrite filter_filter in W1.
  destruct (status_branch _ _ _ _ _ _ status_filter W1) as (v2 & w2 & E2 & W2).
  rewrite (bind_ok _ _ _ _ _ E2).
  rewrite filter_filter in W2.
  destruct (revenue_working _ _ _ _ _ _ W2) as (w3 & E3 & W3).
  exists v2, w3. split; [exact E3|exact W3].
Qed.

Lemma rows_of_view (rows : list Row) (rev : list Z) :
  rows_of (frame_of_rows rows ++ [("Revenue", Float64S rev)]) = rows.
Proof. exact (rows_of_frame_of_rows rows). Qed.

Lemma working_read h sd pg v df w :
  working h sd pg v df w -> read v w = (Ok df, w).
Proof. intros (_ & _ & _ & _ & Hv). unfold read. now rewrite Hv. Qed.

Lemma session_of_lookup (df : DataFrame) : heap (session_of df) !! 1%positive = Some df.
Proof. apply lookup_singleton_eq. Qed.

Lemma app_filtered_view (df : DataFrame) (selected_regions : list string) (status_filter : string) :
  sales_frame df ->
  filtered_view (App.data_processing selected_regions status_filter) df
  = Ok (view_of_rows (List.filter (passes selected_regions status_filter) (rows_of df))).
Proof.
  intros Hdf. unfold filtered_view.
  destruct (app_data_processing_run (session_of df) 1%positive (rows_of df)
              selected_regions status_filter eq_refl) as (v & w' & E & W).
  { rewrite session_of_lookup. f_equal. now apply sales_frame_rows. }
  rewrite (bind_ok _ _ _ _ _ E), (working_read _ _ _ _ _ _ W). reflexivity.
Qed.

Lemma no_auth_filtered_view (df : DataFrame) (selected_products selected_regions : list string)
    (status_filter : string) :
  sales_frame df ->
  filtered_view (AppNoAuth.data_processing selected_products selected_regions status_filter) df
  = Ok (view_of_rows
          (List.filter (passes_no_auth selected_products selected_regions status_filter)
             (rows_of df))).
Proof.
  intros Hdf. unfold filtered_view.
  destruct (no_auth_data_processing_run (session_of df) 1%positive (rows_of df)
              selected_products selected_regions status_filter eq_refl) as (v & w' & E & W).
  { rewrite session_of_lookup. f_equal. now apply sales_frame_rows. }
  rewrite (bind_ok _ _ _ _ _ E), (working_read _ _ _ _ _ _ W). reflexivity.
Qed.

Lemma view_of_rows_frame (rows : list Row) : view_frame (view_of_rows rows).
Proof.
  split; [reflexivity|]. unfold rectangular, view_of_rows, frame_of_rows.
  repeat constructor; cbn; now rewrite !length_map.
Qed.

Lemma selected_spec (selection : list string) (x : string) :
  selected selection x = true <-> selection = [] \/ x ∈ selection.
Proof.
  destruct selection as [|y ys]; cbn [selected].
  - split; [now left|reflexivity].
  - rewrite bool_decide_eq_true. split; [now right|]. now intros [?|?].
Qed.

Lemma status_passes_spec (status_filter : string) (r : Row) :
  status_passes status_filter r = true <-> status_filter = "All" \/ Status r = status_filter.
Proof. unfold status_passes. now rewrite orb_true_iff, !String.eqb_eq. Qed.

Lemma passes_spec selected_regions status_filter r :
  passes selected_regions status_filter r = true
  <-> (selected_regions = [] \/ Region r ∈ selected_regions)
      /\ (status_filter = "All" \/ Status r = status_filter).
Proof. unfold passes. now rewrite andb_true_iff, selected_spec, status_passes_spec. Qed.

Lemma passes_no_auth_spec selected_products selected_regions status_filter r :
  passes_no_auth selected_products selected_regions status_filter r = true
  <-> (selected_products = [] \/ Product r ∈ selected_products)
      /\ (selected_regions = [] \/ Region r ∈ selected_regions)
      /\ (status_filter = "All" \/ Status r = status_filter).
Proof.
  unfold passes_no_auth.
  rewrite !andb_true_iff, !selected_spec, status_passes_spec. tauto.
Qed.

(** ** The filter pass *)

Lemma filter_elem_of (f : Row -> bool) (rows : list Row) (r : Row) :
  r ∈ List.filter f rows <-> r ∈ rows /\ f r = true.
Proof. rewrite !list_elem_of_In. apply filter_In. Qed.

Lemma three_rows_sales_frame : sales_frame three_rows.
Proof. split; [reflexivity|]. unfold rectangular. repeat constructor. Qed.

(** C1, as amended.  With no region selected, app.py applies no region
    filter: the view holds the rows the status filter lets through, all of
    them when it is All.  In app_no_auth.py an empty product selection
    and an empty region selection each switch off their own filter only. *)
Theorem empty_selection_is_no_filter (df : DataFrame) (selection : list string)
    (status_filter : string) :
  sales_frame df ->
  filtered_view (App.data_processing [] status_filter) df
  = Ok (view_of_rows (List.filter (status_passes status_filter) (rows_of df)))
  /\ filtered_view (App.data_processing [] "All") df = Ok (view_of_rows (rows_of df))
  /\ filtered_view (AppNoAuth.data_processing [] selection status_filter) df
     = Ok (view_of_rows
             (List.filter (fun r => selected selection (Region r) && status_passes status_filter r)
                (rows_of df)))
  /\ filtered_view (AppNoAuth.data_processing selection [] status_filter) df
     = Ok (view_of_rows
             (List.filter (fun r => selected selection (Product r) && status_passes status_filter r)
                (rows_of df)))
  /\ filtered_view (AppNoAuth.data_processing [] [] "All") df = Ok (view_of_rows (rows_of df)).
Proof.
  intros Hdf. rewrite !app_filtered_view, !no_auth_filtered_view by assumption.
  repeat split.
  - f_equal. f_equal. now rewrite filter_true.
  - f_equal. f_equal. apply filter_ext. intros r.
    unfold passes_no_auth. cbn [selected andb].
    now rewrite andb_true_r.
  - f_equal. f_equal. now rewrite filter_true.
Qed.

Lemma empty_selection_is_no_filter_witness :
  filtered_view (App.data_processing [] "Pending") three_rows
  = Ok (view_of_rows (List.filter (status_passes "Pending") (rows_of three_rows)))
  /\ filtered_view (App.data_processing [] "All") three_rows = Ok (view_of_rows (rows_of three_rows))
  /\ filtered_view (AppNoAuth.data_processing [] ["North"] "Pending") three_rows
     = Ok (view_of_rows
             (List.filter (fun r => selected ["North"] (Region r) && status_passes "Pending" r)
                (rows_of three_rows)))
  /\ filtered_view (AppNoAuth.data_processing ["North"] [] "Pending") three_rows
     = Ok (view_of_rows
             (List.filter (fun r => selected ["North"] (Product r) && status_passes "Pending" r)
                (rows_of three_rows)))
  /\ filtered_view (AppNoAuth.data_processing [] [] "All") three_rows
     = Ok (view_of_rows (rows_of three_rows)).
Proof.
  apply (empty_selection_is_no_filter three_rows ["North"] "Pending").
  split; [reflexivity|]. unfold rectangular. repeat constructor.
Defined.

(** C1 as claimed fails: with no region selected and the status filter on
    All, the three-row dataset comes back whole, not empty. *)
Lemma empty_region_selection_keeps_rows :
  exists view,
    filtered_view (App.data_processing [] "All") three_rows = Ok view
    /\ rows_of view = [row1; row2; row3]
    /\ nrows view <> 0%nat.
Proof. eexists. split; [vm_compute; reflexivity|]. split; [reflexivity|discriminate]. Qed.

(** C2, as amended.  The view is a well-formed view frame whose rows are the
    canonical rows that pass, in their order and as often as they occur; a
    row passes when its Region is selected or no region is, its Product is
    selected or no product is (app_no_auth.py), and the status filter is All
    or the row's Status. *)
Theorem filtered_view_rows (df : DataFrame) (selected_products selected_regions : list string)
    (status_filter : string) :
  sales_frame df ->
  (exists view,
     filtered_view (App.data_processing selected_regions status_filter) df = Ok view
     /\ view_frame view
     /\ rows_of view = List.filter (passes selected_regions status_filter) (rows_of df)
     /\ forall r, r ∈ rows_of view <->
          r ∈ rows_of df
          /\ (selected_regions = [] \/ Region r ∈ selected_regions)
          /\ (status_filter = "All" \/ Status r = status_filter))
  /\ (exists view,
     filtered_view (AppNoAuth.data_processing selected_products selected_regions status_filter) df
     = Ok view
     /\ view_frame view
     /\ rows_of view
        = List.filter (passes_no_auth selected_products selected_regions status_filter) (rows_of df)
     /\ forall r, r ∈ rows_of view <->
          r ∈ rows_of df
          /\ (selected_products = [] \/ Product r ∈ selected_products)
          /\ (selected_regions = [] \/ Region r ∈ selected_regions)
          /\ (status_filter = "All" \/ Status r = status_filter)).
Proof.
  intros Hdf. split; eexists.
  - split; [now apply app_filtered_view|]. split; [apply view_of_rows_frame|].
    unfold view_of_rows. rewrite rows_of_view. split; [reflexivity|].
    intros r. now rewrite filter_elem_of, passes_spec.
  - split; [now apply no_auth_filtered_view|]. split; [apply view_of_rows_frame|].
    unfold view_of_rows. rewrite rows_of_view. split; [reflexivity|].
    intros r. now rewrite filter_elem_of, passes_no_auth_spec.
Qed.

Lemma filtered_view_rows_witness :
  (exists view,
     filtered_view (App.data_processing ["North"] "Pending") three_rows = Ok view
     /\ view_frame view
     /\ rows_of view = List.filter (passes ["North"] "Pending") (rows_of three_rows)
     /\ forall r, r ∈ rows_of view <->
          r ∈ rows_of three_rows
          /\ (["North"] = [] \/ Region r ∈ ["North"])
          /\ ("Pending" = "All" \/ Status r = "Pending"))
  /\ (exists view,
     filtered_view (AppNoAuth.data_processing ["Laptop"] ["North"] "Pending") three_rows = Ok view
     /\ view_frame view
     /\ rows_of view
        = List.filter (passes_no_auth ["Laptop"] ["North"] "Pending") (rows_of three_rows)
     /\ forall r, r ∈ rows_of view <->
          r ∈ rows_of three_rows
          /\ (["Laptop"] = [] \/ Product r ∈ ["Laptop"])
          /\ (["North"] = [] \/ Region r ∈ ["North"])
          /\ ("Pending" = "All" \/ Status r = "Pending")).
Proof.
  apply (filtered_view_rows three_rows ["Laptop"] ["North"] "Pending").
  split; [reflexivity|]. unfold rectangular. repeat constructor.
Defined.

(** C2 as claimed fails: with no region selected, a row is in the view
    although its Region is not among the selected regions. *)
Lemma row_in_view_outside_selection :
  exists view,
    filtered_view (App.data_processing [] "All") three_rows = Ok view
    /\ row1 ∈ rows_of view
    /\ row1 ∈ rows_of three_rows
    /\ ~ spec_passes [] "All" row1.
Proof.
  eexists. split; [vm_compute; reflexivity|].
  split; [apply list_elem_of_In; now left|].
  split; [apply list_elem_of_In; now left|].
  intros [H _]. now apply elem_of_nil in H.
Qed.

Lemma working_frame (w : world) (l v : loc) (df view : DataFrame) (w' : world) :
  sales_data w = Some l ->
  heap w !! l = Some df ->
  working (heap w) (Some l) (page w) v view w' ->
  sales_data w' = Some l /\ canonical w' = Some df /\ v <> l /\ heap w' !! v = Some view
  /\ (forall name s, canonical (snd (df_setitem v name s w')) = Some df)
  /\ (forall new, canonical (snd (write v new w')) = Some df).
Proof.
  intros Hsd Hl (Hsd' & _ & Hsub & Hnew & Hv).
  assert (Hl' : heap w' !! l = Some df) by (eapply lookup_weaken; eassumption).
  assert (Hne : v <> l) by congruence.
  split; [assumption|]. split; [unfold canonical; now rewrite Hsd'|].
  split; [assumption|]. split; [assumption|]. split.
  - intros name s. unfold df_setitem, bind, read, write. rewrite Hv. cbn.
    unfold canonical. cbn. rewrite Hsd'. now rewrite lookup_insert_ne.
  - intros new. unfold write, canonical. cbn. rewrite Hsd'. now rewrite lookup_insert_ne.
Qed.

(** C8.  A filter pass leaves the session pointing at the same canonical
    frame, with the same content; the view it returns is another frame, and
    assigning to a column of the view, or overwriting the view altogether,
    leaves the canonical frame as it was. *)
Theorem filter_pass_keeps_canonical (w : world) (df : DataFrame)
    (selected_products selected_regions : list string) (status_filter : string) :
  canonical w = Some df ->
  sales_frame df ->
  (exists v w',
     App.data_processing selected_regions status_filter w = (Ok v, w')
     /\ sales_data w' = sales_data w
     /\ canonical w' = Some df
     /\ sales_data w' <> Some v
     /\ (forall name s, canonical (snd (df_setitem v name s w')) = Some df)
     /\ (forall new, canonical (snd (write v new w')) = Some df))
  /\ (exists v w',
     AppNoAuth.data_processing selected_products selected_regions status_filter w = (Ok v, w')
     /\ sales_data w' = sales_data w
     /\ canonical w' = Some df
     /\ sales_data w' <> Some v
     /\ (forall name s, canonical (snd (df_setitem v name s w')) = Some df)
     /\ (forall new, canonical (snd (write v new w')) = Some df)).
Proof.
  unfold canonical at 1. intros Hc Hdf.
  destruct (sales_data w) as [l|] eqn:Hsd; [|discriminate].
  assert (Hl : heap w !! l = Some (frame_of_rows (rows_of df)))
    by (now rewrite <- sales_frame_rows).
  split.
  - destruct (app_data_processing_run w l _ selected_regions status_filter Hsd Hl)
      as (v & w' & E & W).
    destruct (working_frame w l v _ _ w' Hsd Hc W) as (H1 & H2 & H3 & _ & H5 & H6).
    exists v, w'. repeat split; try assumption. congruence.
  - destruct (no_auth_data_processing_run w l _ selected_products selected_regions
                status_filter Hsd Hl) as (v & w' & E & W).
    destruct (working_frame w l v _ _ w' Hsd Hc W) as (H1 & H2 & H3 & _ & H5 & H6).
    exists v, w'. repeat split; try assumption. congruence.
Qed.

Lemma filter_pass_keeps_canonical_witness :
  (exists v w',
     App.data_processing ["North"] "Pending" (session_of three_rows) = (Ok v, w')
     /\ sales_data w' = sales_data (session_of three_rows)
     /\ canonical w' = Some three_rows
     /\ sales_data w' <> Some v
     /\ (forall name s, canonical (snd (df_setitem v name s w')) = Some three_rows)
     /\ (forall new, canonical (snd (write v new w')) = Some three_rows))
  /\ (exists v w',
     AppNoAuth.data_processing ["Laptop"] ["North"] "Pending" (session_of three_rows) = (Ok v, w')
     /\ sales_data w' = sales_data (session_of three_rows)
     /\ canonical w' = Some three_rows
     /\ sales_data w' <> Some v
     /\ (forall name s, canonical (snd (df_setitem v name s w')) = Some three_rows)
     /\ (forall new, canonical (snd (write v new w')) = Some three_rows)).
Proof.
  apply (filter_pass_keeps_canonical (session_of three_rows) three_rows
           ["Laptop"] ["North"] "Pending").
  - reflexivity.
  - split; [reflexivity|]. unfold rectangular. repeat constructor.
Defined.

(** ** Reconciling an edited frame *)

Lemma list_eqb_eq {A} (eqb : A -> A -> bool) (l1 l2 : list A) :
  (forall x y, eqb x y = true <-> x = y) ->
  list_eqb eqb l1 l2 = true <-> l1 = l2.
Proof.
  intros Heqb. revert l2. induction l1 as [|x l1 IH]; intros [|y l2]; cbn;
    try (split; [discriminate|congruence]); [tauto|].
  rewrite andb_true_iff, Heqb, IH. split; [intros [-> ->]; reflexivity|].
  intros [= -> ->]. tauto.
Qed.

Lemma series_equals_eq (a b : Series) : series_equals a b = true <-> a = b.
Proof.
  destruct a, b; cbn; try (split; [discriminate|congruence]);
    (rewrite list_eqb_eq; [split; congruence|]); intros x y.
  - apply String.eqb_eq.
  - apply Z.eqb_eq.
  - apply Z.eqb_eq.
  - apply Z.eqb_eq.
Qed.

Lemma equals_eq (a b : DataFrame) : equals a b = true <-> a = b.
Proof.
  unfold equals. apply list_eqb_eq. intros [n s] [n' s']. cbn.
  rewrite andb_true_iff, String.eqb_eq, series_equals_eq.
  split; [intros [-> ->]; reflexivity|]. intros [= -> ->]. tauto.
Qed.

(** C3.  Reconciling a frame with the same columns, dtypes and cells as the
    canonical one changes nothing and lets the run go on; reconciling any
    other frame makes it the canonical frame and restarts the run. *)
Theorem reconcile_replaces_when_different (w : world) (edited_df : loc) (df edited : DataFrame) :
  canonical w = Some df ->
  heap w !! edited_df = Some edited ->
  (edited = df -> reconcile edited_df w = (Ok tt, w))
  /\ (edited <> df ->
      exists w',
        reconcile edited_df w = (Raise RerunException, w')
        /\ sales_data w' = Some edited_df
        /\ canonical w' = Some edited
        /\ heap w' = heap w).
Proof.
  unfold canonical. intros Hc He.
  destruct (sales_data w) as [l|] eqn:Hsd; [|discriminate].
  unfold reconcile, bind, session_sales_data, read.
  repeat first [rewrite He | rewrite Hsd | rewrite Hc | progress cbv beta iota].
  split.
  - intros ->. assert (H : equals df df = true) by now apply equals_eq.
    rewrite H. reflexivity.
  - intros Hne. destruct (equals edited df) eqn:H; [now apply equals_eq in H|].
    cbn. eexists. split; [reflexivity|]. cbn. now rewrite He.
Qed.

Lemma reconcile_replaces_when_different_witness :
  let w := {| heap := {[ 1%positive := three_rows; 2%positive := frame_of_rows [row1] ]};
              sales_data := Some 1%positive; page := [] |} in
  (frame_of_rows [row1] = three_rows -> reconcile 2%positive w = (Ok tt, w))
  /\ (frame_of_rows [row1] <> three_rows ->
      exists w',
        reconcile 2%positive w = (Raise RerunException, w')
        /\ sales_data w' = Some 2%positive
        /\ canonical w' = Some (frame_of_rows [row1])
        /\ heap w' = heap w).
Proof.
  apply (reconcile_replaces_when_different
           {| heap := {[ 1%positive := three_rows; 2%positive := frame_of_rows [row1] ]};
              sales_data := Some 1%positive; page := [] |}
           2%positive three_rows (frame_of_rows [row1])); reflexivity.
Defined.

(** ** The KPIs *)

Lemma view_frame_inv (view : DataFrame) :
  view_frame view ->
  exists rev,
    view = frame_of_rows (rows_of view) ++ [("Revenue", Float64S rev)]
    /\ length rev = length (rows_of view).
Proof.
  intros [Hty Hrect]. unfold rectangular in Hrect.
  do 8 (destruct view as [|[? []] view]; try discriminate Hty).
  destruct view; [|discriminate Hty].
  injection Hty as -> -> -> -> -> -> -> ->.
  repeat match goal with H : Forall _ (_ :: _) |- _ => inversion H; clear H; subst end.
  cbn [snd series_len nrows] in *.
  match goal with
  | |- exists rev, ?v = _ /\ _ =>
      match v with
      | ?c1 :: ?c2 :: ?c3 :: ?c4 :: ?c5 :: ?c6 :: ?c7 :: [(_, Float64S ?rev)] =>
          assert (Hrows : rows_of v = rows_of [c1; c2; c3; c4; c5; c6; c7]) by reflexivity;
          assert (Hbase : sales_frame [c1; c2; c3; c4; c5; c6; c7])
            by (split; [reflexivity|]; unfold rectangular; repeat constructor; assumption);
          exists rev
      end
  end.
  rewrite Hrows. split.
  - rewrite <- (sales_frame_rows _ Hbase). reflexivity.
  - unfold rows_of. rewrite length_map, length_seq. cbn [nrows series_len]. assumption.
Qed.

Lemma nrows_view (rows : list Row) (rev : list Z) :
  nrows (frame_of_rows rows ++ [("Revenue", Float64S rev)]) = length rows.
Proof. cbn. apply length_map. Qed.

Lemma nrows_completed (rows : list Row) (rev : list Z) :
  nrows (frame_mask (series_eq (ObjectS (map Status rows)) "Completed")
           (frame_of_rows rows ++ [("Revenue", Float64S rev)]))
  = length (List.filter completed rows).
Proof.
  cbn [frame_of_rows app frame_mask map nrows fst snd series_mask series_len series_eq].
  rewrite map_map. fold completed.
  now rewrite (mask_list_map completed Date), length_map.
Qed.

Lemma completion_rate_of_view (rows : list Row) (rev : list Z) :
  completion_rate_of (frame_of_rows rows ++ [("Revenue", Float64S rev)])
  = Ok match rows with
       | [] => 0%Q
       | _ :: _ => (inject_Z (Z.of_nat (length (List.filter completed rows)))
                    / inject_Z (Z.of_nat (length rows)) * 100)%Q
       end.
Proof.
  unfold completion_rate_of. rewrite nrows_view.
  destruct rows as [|r rows]; [reflexivity|].
  change (0 <? length (r :: rows))%nat with true. cbv iota.
  change (getitem (frame_of_rows (r :: rows) ++ [("Revenue", Float64S rev)]) "Status")
    with (Ok (ObjectS (map Status (r :: rows)))).
  cbn [obind]. rewrite nrows_completed. unfold truediv.
  destruct (Z.eqb_spec (Z.of_nat (length (r :: rows))) 0) as [H|_]; [discriminate H|].
  reflexivity.
Qed.

(** The guard of the completion rate: whatever the frame, the division is
    never by zero. *)
Lemma completion_rate_never_divides_by_zero (df : DataFrame) :
  completion_rate_of df <> Raise ZeroDivisionError.
Proof.
  unfold completion_rate_of. destruct (Nat.ltb_spec 0 (nrows df)) as [Hpos|_]; [|discriminate].
  unfold getitem. destruct (get_column df "Status"); cbn [obind]; [|discriminate].
  unfold truediv. destruct (Z.eqb_spec (Z.of_nat (nrows df)) 0) as [H|_]; [lia|discriminate].
Qed.

Lemma kpis_view (rows : list Row) (rev : list Z) :
  exists k,
    kpis (frame_of_rows rows ++ [("Revenue", Float64S rev)]) = Ok k
    /\ total_revenue k = zsum rev
    /\ total_units k = wrap64 (zsum (map Units_Sold rows))
    /\ avg_rating k = match rows with
                      | [] => NaN
                      | _ :: _ => Fin (inject_Z (zsum (map Rating rows))
                                       / inject_Z (Z.of_nat (length rows)))%Q
                      end
    /\ completion_rate_of (frame_of_rows rows ++ [("Revenue", Float64S rev)])
       = Ok (completion_rate k)
    /\ completion_rate k
       = match rows with
         | [] => 0%Q
         | _ :: _ => (inject_Z (Z.of_nat (length (List.filter completed rows)))
                      / inject_Z (Z.of_nat (length rows)) * 100)%Q
         end.
Proof.
  unfold kpis.
  change (getitem (frame_of_rows rows ++ [("Revenue", Float64S rev)]) "Revenue")
    with (Ok (Float64S rev)).
  change (getitem (frame_of_rows rows ++ [("Revenue", Float64S rev)]) "Units Sold")
    with (Ok (Int64S (map Units_Sold rows))).
  change (getitem (frame_of_rows rows ++ [("Revenue", Float64S rev)]) "Rating")
    with (Ok (Int64S (map Rating rows))).
  rewrite completion_rate_of_view. cbn [obind series_sum].
  assert (Hmean : series_mean (Int64S (map Rating rows))
                  = Ok match rows with
                       | [] => NaN
                       | _ :: _ => Fin (inject_Z (zsum (map Rating rows))
                                        / inject_Z (Z.of_nat (length rows)))%Q
                       end).
  { destruct rows as [|r rows]; [reflexivity|]. cbn [map series_mean length]. now rewrite length_map. }
  rewrite Hmean. cbn [obind]. eexists. split; [reflexivity|]. cbn.
  repeat split; reflexivity.
Qed.

(** C4.  For a well-formed view the completion-rate KPI is 0 when the view
    has no rows and 100 x (rows with Status Completed) / (rows) otherwise;
    and for any frame at all its computation does not divide by zero. *)
Theorem completion_rate_kpi (view : DataFrame) :
  view_frame view ->
  (forall df, completion_rate_of df <> Raise ZeroDivisionError)
  /\ exists k,
       kpis view = Ok k
       /\ completion_rate_of view = Ok (completion_rate k)
       /\ (rows_of view = [] -> completion_rate k = 0%Q)
       /\ (rows_of view <> [] ->
           (completion_rate k
            == 100 * inject_Z (Z.of_nat (length (List.filter completed (rows_of view))))
               / inject_Z (Z.of_nat (length (rows_of view))))%Q).
Proof.
  intros Hview. split; [exact completion_rate_never_divides_by_zero|].
  destruct (view_frame_inv view Hview) as (rev & Hv & _).
  destruct (kpis_view (rows_of view) rev) as (k & Hk & _ & _ & _ & Hc & Hrate).
  rewrite <- Hv in Hk, Hc.
  exists k. split; [assumption|]. split; [assumption|]. rewrite Hrate.
  destruct (rows_of view) as [|r rows]; split; try congruence; intros _.
  assert (Hlen : ~ (inject_Z (Z.of_nat (length (r :: rows))) == 0)%Q).
  { unfold Qeq. cbn [Qnum Qden inject_Z length]. lia. }
  field. exact Hlen.
Qed.

Lemma completion_rate_kpi_witness :
  (forall df, completion_rate_of df <> Raise ZeroDivisionError)
  /\ exists k,
       kpis (view_of_rows [row1; row2; row3]) = Ok k
       /\ completion_rate_of (view_of_rows [row1; row2; row3]) = Ok (completion_rate k)
       /\ (rows_of (view_of_rows [row1; row2; row3]) = [] -> completion_rate k = 0%Q)
       /\ (rows_of (view_of_rows [row1; row2; row3]) <> [] ->
           (completion_rate k
            == 100 * inject_Z (Z.of_nat (length (List.filter completed
                                                   (rows_of (view_of_rows [row1; row2; row3])))))
               / inject_Z (Z.of_nat (length (rows_of (view_of_rows [row1; row2; row3])))))%Q).
Proof.
  apply (completion_rate_kpi (view_of_rows [row1; row2; row3])).
  split; [reflexivity|]. unfold rectangular. repeat constructor.
Defined.

(** C7, on the code.  For a well-formed view with rows the average rating is
    the sum of the ratings over their number.  For a view without rows it is
    NaN, and the card shows it as such: "nan" followed by the star. *)
Theorem avg_rating_kpi (py_format : string -> Q -> string) (view : DataFrame) :
  view_frame view ->
  exists k,
    kpis view = Ok k
    /\ (rows_of view = [] ->
        avg_rating k = NaN
        /\ (format_float py_format ".1f" (avg_rating k) ++ " ⭐")%string = "nan ⭐")
    /\ (rows_of view <> [] ->
        avg_rating k = Fin (inject_Z (zsum (map Rating (rows_of view)))
                            / inject_Z (Z.of_nat (length (rows_of view))))%Q).
Proof.
  intros Hview.
  destruct (view_frame_inv view Hview) as (rev & Hv & _).
  destruct (kpis_view (rows_of view) rev) as (k & Hk & _ & _ & Havg & _).
  rewrite <- Hv in Hk. exists k. split; [assumption|]. rewrite Havg.
  destruct (rows_of view) as [|r rows]; split; try congruence.
  intros _. split; reflexivity.
Qed.

Lemma avg_rating_kpi_witness :
  exists k,
    kpis (view_of_rows []) = Ok k
    /\ (rows_of (view_of_rows []) = [] ->
        avg_rating k = NaN
        /\ (format_float (fun _ _ => "") ".1f" (avg_rating k) ++ " ⭐")%string = "nan ⭐")
    /\ (rows_of (view_of_rows []) <> [] ->
        avg_rating k = Fin (inject_Z (zsum (map Rating (rows_of (view_of_rows []))))
                            / inject_Z (Z.of_nat (length (rows_of (view_of_rows [])))))%Q).
Proof.
  apply (avg_rating_kpi (fun _ _ => "") (view_of_rows [])).
  split; [reflexivity|]. unfold rectangular. repeat constructor.
Defined.

(** The card on the page of a whole run: a new session whose seed drew only
    Completed orders, with the status filter on Pending, so that no row is
    left. *)
Lemma rating_card_of_empty_view (py_format : string -> Q -> string)
    (sort_values : list (string * Z) -> list (string * Z)) :
  In (st_metric "Avg Customer Rating" "nan ⭐")
     (page (run (App.script py_format sort_values) pending_only empty_session))
  /\ In (st_metric "Avg Customer Rating" "nan ⭐")
       (page (run (AppNoAuth.main py_format sort_values) pending_only empty_session)).
Proof. split; vm_compute; tauto. Qed.

(** ** The status filter *)

Lemma status_filter_cases (inp : inputs) :
  status_filter inp = "All" \/ status_filter inp = "Completed" \/ status_filter inp = "Pending".
Proof.
  unfold status_filter, st_radio.
  destruct (in_status inp) as [|[|[|[|n]]]]; cbn; auto.
Qed.

(** C10.  The status filter is All, Completed or Pending, never Cancelled;
    so a view that has rows, all of them Cancelled, is one the status filter
    All produced. *)
Theorem status_filter_never_cancelled (inp : inputs) :
  (status_filter inp = "All" \/ status_filter inp = "Completed" \/ status_filter inp = "Pending")
  /\ status_filter inp <> "Cancelled"
  /\ forall df selected_products selected_regions view,
       sales_frame df ->
       filtered_view (App.data_processing selected_regions (status_filter inp)) df = Ok view
       \/ filtered_view (AppNoAuth.data_processing selected_products selected_regions
                           (status_filter inp)) df = Ok view ->
       rows_of view <> [] ->
       (forall r, r ∈ rows_of view -> Status r = "Cancelled") ->
       status_filter inp = "All".
Proof.
  pose proof (status_filter_cases inp) as Hcases.
  assert (Hne : status_filter inp <> "Cancelled")
    by (destruct Hcases as [-> | [-> | ->]]; discriminate).
  split; [assumption|]. split; [assumption|].
  intros df selected_products selected_regions view Hdf Hview Hrows Hall.
  assert (Hst : forall r, r ∈ rows_of view -> status_passes (status_filter inp) r = true).
  { intros r Hr. destruct Hview as [Hview | Hview].
    - rewrite app_filtered_view in Hview by assumption. injection Hview as <-.
      unfold view_of_rows in Hr. rewrite rows_of_view in Hr.
      apply filter_elem_of in Hr as [_ Hr]. unfold passes in Hr.
      now apply andb_true_iff in Hr as [_ Hr].
    - rewrite no_auth_filtered_view in Hview by assumption. injection Hview as <-.
      unfold view_of_rows in Hr. rewrite rows_of_view in Hr.
      apply filter_elem_of in Hr as [_ Hr]. unfold passes_no_auth in Hr.
      now apply andb_true_iff in Hr as [_ Hr]. }
  destruct (rows_of view) as [|r rows]; [congruence|].
  assert (Hr : r ∈ r :: rows) by (apply list_elem_of_In; now left).
  specialize (Hst r Hr). apply status_passes_spec in Hst as [Hst | Hst]; [assumption|].
  rewrite (Hall r Hr) in Hst. congruence.
Qed.

Lemma status_filter_never_cancelled_witness : status_filter (idle None) = "All".
Proof.
  apply (proj2 (proj2 (status_filter_never_cancelled (idle None)))
           (frame_of_rows [row2]) [] [] (view_of_rows [row2])).
  - split; [reflexivity|]. unfold rectangular. repeat constructor.
  - left. vm_compute. reflexivity.
  - discriminate.
  - intros r Hr. apply list_elem_of_In in Hr. destruct Hr as [<- | []]. reflexivity.
Defined.

(** ** The login gate *)

(** C9.  Logged in, the script is [main].  After a wrong password, and before
    any login, it leaves the heap and the session as they were (no dataset is
    made, read or replaced) and the page holds one fixed message. *)
Theorem login_gate (py_format : string -> Q -> string)
    (sort_values : list (string * Z) -> list (string * Z)) (inp : inputs) (w : world) :
  (in_authentication_status inp = Some true ->
   run (App.script py_format sort_values) inp w = run (App.main py_format sort_values) inp w)
  /\ (in_authentication_status inp = Some false ->
      App.script py_format sort_values inp w
      = render (st_error "Username/password is incorrect") w
      /\ heap (run (App.script py_format sort_values) inp w) = heap w
      /\ sales_data (run (App.script py_format sort_values) inp w) = sales_data w
      /\ page (run (App.script py_format sort_values) inp w)
         = [st_error "Username/password is incorrect"])
  /\ (in_authentication_status inp = None ->
      App.script py_format sort_values inp w
      = render (st_warning "Please enter your username and password") w
      /\ heap (run (App.script py_format sort_values) inp w) = heap w
      /\ sales_data (run (App.script py_format sort_values) inp w) = sales_data w
      /\ page (run (App.script py_format sort_values) inp w)
         = [st_warning "Please enter your username and password"])
  /\ (run (App.script py_format sort_values) inp w
      <> {| heap := heap w; sales_data := sales_data w;
            page := [st_error "Username/password is incorrect"] |} ->
      run (App.script py_format sort_values) inp w
      <> {| heap := heap w; sales_data := sales_data w;
            page := [st_warning "Please enter your username and password"] |} ->
      in_authentication_status inp = Some true).
Proof.
  unfold run, App.script.
  destruct (in_authentication_status inp) as [[|]|]; repeat split; try discriminate; try tauto.
Qed.

Lemma login_gate_witness :
  page (run (App.script (fun _ _ => "") (fun l => l)) (idle (Some false)) empty_session)
  = [st_error "Username/password is incorrect"].
Proof.
  apply (proj1 (proj2 (login_gate (fun _ _ => "") (fun l => l) (idle (Some false)) empty_session))).
  reflexivity.
Defined.

(** ** What every reachable session satisfies *)

Lemma keeps_bind {A B} (c : M A) (k : A -> M B) :
  keeps c -> (forall a, keeps (k a)) -> keeps (bind c k).
Proof.
  intros Hc Hk w Hw. unfold bind. specialize (Hc w Hw).
  destruct (c w) as [[a|e] w']; cbn in Hc; [now apply Hk|assumption].
Qed.

Lemma keeps_ret {A} (a : A) : keeps (ret a).
Proof. intros w Hw. exact Hw. Qed.

Lemma keeps_lift {A} (o : outcome A) : keeps (lift o).
Proof. intros w Hw. exact Hw. Qed.

Lemma keeps_read (l : loc) : keeps (read l).
Proof. intros w Hw. unfold read. now destruct (heap w !! l). Qed.

Lemma keeps_render (e : element) : keeps (render e).
Proof. intros w Hw. exact Hw. Qed.

Lemma random_length {A} (f : nat -> A) (n : nat) : length (map f (seq 0 n)) = n.
Proof. now rewrite length_map, length_seq. Qed.

Lemma new_sales_data_frame (d : Draws) : sales_frame (new_sales_data d).
Proof.
  split; [reflexivity|]. unfold rectangular, new_sales_data.
  repeat constructor; cbn [snd series_len nrows];
    unfold random_choice, random_randint, random_uniform_round2, date_range;
    now rewrite !random_length.
Qed.

Lemma keeps_initialization (d : Draws) : keeps (session_state_initialization d).
Proof.
  intros w Hw. unfold session_state_initialization.
  destruct (sales_data w) eqn:Hsd; [exact Hw|].
  intros l [= <-]. cbn. exists (new_sales_data d).
  split; [apply lookup_insert_eq|apply new_sales_data_frame].
Qed.

Lemma keeps_working (w w' : world) (l v : loc) (df view : DataFrame) :
  sales_data w = Some l ->
  heap w !! l = Some df ->
  sales_frame df ->
  working (heap w) (Some l) (page w) v view w' ->
  canonical_ok w'.
Proof.
  intros Hsd Hl Hdf (Hsd' & _ & Hsub & _ & _) l' Hl'.
  rewrite Hsd' in Hl'. injection Hl' as <-.
  exists df. split; [|assumption]. eapply lookup_weaken; eassumption.
Qed.

Lemma keeps_app_filter_pass (inp : inputs) : keeps (App.filter_pass inp).
Proof.
  intros w Hw. unfold App.filter_pass.
  destruct (sales_data w) as [l|] eqn:Hsd.
  - destruct (Hw l Hsd) as (df & Hl & Hdf).
    pose proof Hl as Hl'. rewrite (sales_frame_rows df Hdf) in Hl'.
    destruct (app_data_processing_run w l _ (in_regions inp) (status_filter inp) Hsd Hl')
      as (v & w' & E & W).
    rewrite E. cbn [snd].
    exact (keeps_working w w' l v _ _ Hsd Hl' (frame_of_rows_sales _) W).
  - unfold App.data_processing, bind, session_sales_data. now rewrite Hsd.
Qed.

Lemma keeps_no_auth_filter_pass (inp : inputs) : keeps (AppNoAuth.filter_pass inp).
Proof.
  intros w Hw. unfold AppNoAuth.filter_pass.
  destruct (sales_data w) as [l|] eqn:Hsd.
  - destruct (Hw l Hsd) as (df & Hl & Hdf).
    pose proof Hl as Hl'. rewrite (sales_frame_rows df Hdf) in Hl'.
    destruct (no_auth_data_processing_run w l _ (in_products inp) (in_regions inp)
                (status_filter inp) Hsd Hl') as (v & w' & E & W).
    rewrite E. cbn [snd].
    exact (keeps_working w w' l v _ _ Hsd Hl' (frame_of_rows_sales _) W).
  - unfold AppNoAuth.data_processing, bind, session_sales_data. now rewrite Hsd.
Qed.

(** One editor tab, run on a session with a canonical frame [df]: the frame
    the editor hands back is a new one; it becomes the canonical frame, and
    the run restarts, exactly when it differs from [df]. *)
Lemma editor_tab_run (user_edit : DataFrame -> DataFrame) (w : world) (l : loc) (df : DataFrame) :
  sales_data w = Some l ->
  heap w !! l = Some df ->
  exists e,
    heap w !! e = None
    /\ editor_tab user_edit w
       = if equals (user_edit df) df
         then (Ok tt, {| heap := <[e := user_edit df]> (heap w); sales_data := Some l;
                         page := page w |})
         else (Raise RerunException,
               {| heap := <[e := user_edit df]> (heap w); sales_data := Some e;
                  page := page w |}).
Proof.
  intros Hsd Hl. exists (fresh (dom (heap w))). split; [apply fresh_lookup|].
  assert (Hne : fresh (dom (heap w)) <> l).
  { intros Heq. pose proof (fresh_lookup (heap w)) as Hf. rewrite Heq in Hf. congruence. }
  unfold editor_tab, st_data_editor, reconcile, bind, session_sales_data, read, alloc.
  repeat first [ rewrite Hsd | rewrite Hl | rewrite lookup_insert_eq
               | rewrite lookup_insert_ne by assumption
               | progress cbn [sales_data heap page] | progress cbv beta iota ].
  destruct (equals (user_edit df) df); reflexivity.
Qed.

Lemma keeps_editor_tab (user_edit : DataFrame -> DataFrame) :
  editor_contract user_edit -> keeps (editor_tab user_edit).
Proof.
  intros Hedit w Hw.
  destruct (sales_data w) as [l|] eqn:Hsd.
  - destruct (Hw l Hsd) as (df & Hl & Hdf).
    destruct (editor_tab_run user_edit w l df Hsd Hl) as (e & He & ->).
    destruct (equals (user_edit df) df); cbn [snd]; intros l' [= <-]; cbn [heap].
    + exists df. split; [|assumption]. rewrite lookup_insert_ne; [assumption|congruence].
    + exists (user_edit df). split; [apply lookup_insert_eq|].
      destruct Hdf as [Hty Hrect]. destruct (Hedit df) as [Hty' Hrect'].
      split; [congruence|auto].
  - unfold editor_tab, bind, session_sales_data. now rewrite Hsd.
Qed.

Lemma keeps_main py_format sort_values (filter_pass : inputs -> M loc) (inp : inputs) :
  keeps (filter_pass inp) -> plausible inp ->
  keeps (main py_format sort_values filter_pass inp).
Proof.
  intros Hpass [Hmaster Hnew]. unfold main.
  apply keeps_bind; [apply keeps_initialization|intros _].
  apply keeps_bind; [assumption|intros df_filtered].
  apply keeps_bind; [apply keeps_read|intros view].
  apply keeps_bind; [apply keeps_lift|intros k].
  apply keeps_bind;
    [unfold metrics; repeat (apply keeps_bind; [apply keeps_render|intros _]);
     apply keeps_render|intros _].
  apply keeps_bind.
  { destruct (in_show_raw_data inp); [|apply keeps_ret].
    unfold editors. apply keeps_bind; [|intros _]; now apply keeps_editor_tab. }
  intros _. apply keeps_bind; [apply keeps_lift|intros top].
  apply keeps_bind; [apply keeps_render|intros _].
  destruct (in_export inp); [apply keeps_render|apply keeps_ret].
Qed.

Lemma reachable_canonical_ok (script : inputs -> M unit) (w : world) :
  (forall inp, plausible inp -> keeps (script inp)) ->
  reachable script w -> canonical_ok w.
Proof.
  intros Hkeeps Hreach. induction Hreach as [|w inp _ IH Hinp].
  - intros l [=].
  - unfold run. apply Hkeeps; [assumption|]. exact IH.
Qed.

Lemma reachable_app py_format sort_values (w : world) :
  reachable (App.script py_format sort_values) w -> canonical_ok w.
Proof.
  apply reachable_canonical_ok. intros inp Hinp. unfold App.script.
  destruct (in_authentication_status inp) as [[|]|]; try apply keeps_render.
  apply keeps_main; [apply keeps_app_filter_pass|assumption].
Qed.

Lemma reachable_no_auth py_format sort_values (w : world) :
  reachable (AppNoAuth.main py_format sort_values) w -> canonical_ok w.
Proof.
  apply reachable_canonical_ok. intros inp Hinp.
  apply keeps_main; [apply keeps_no_auth_filter_pass|assumption].
Qed.

(** C5.  In every session a script can reach, the canonical frame has the
    seven sales columns and no Revenue column; every filter pass on it
    returns a view whose Revenue column holds, row by row, Units Sold times
    Unit Price, computed from the canonical frame as it is then, and leaves
    the canonical frame as it was. *)
Theorem revenue_is_derived_each_pass (py_format : string -> Q -> string)
    (sort_values : list (string * Z) -> list (string * Z)) (w : world) (df : DataFrame)
    (inp : inputs) :
  reachable (App.script py_format sort_values) w
  \/ reachable (AppNoAuth.main py_format sort_values) w ->
  canonical w = Some df ->
  dtypes df = sales_dtypes
  /\ get_column df "Revenue" = None
  /\ (exists v w' view,
        App.filter_pass inp w = (Ok v, w')
        /\ heap w' !! v = Some view
        /\ view_frame view
        /\ rows_of view = List.filter (passes (in_regions inp) (status_filter inp)) (rows_of df)
        /\ revenue_of view = map (fun r => Units_Sold r * Unit_Price r) (rows_of view)
        /\ canonical w' = Some df)
  /\ (exists v w' view,
        AppNoAuth.filter_pass inp w = (Ok v, w')
        /\ heap w' !! v = Some view
        /\ view_frame view
        /\ rows_of view
           = List.filter (passes_no_auth (in_products inp) (in_regions inp) (status_filter inp))
               (rows_of df)
        /\ revenue_of view = map (fun r => Units_Sold r * Unit_Price r) (rows_of view)
        /\ canonical w' = Some df).
Proof.
  intros Hreach Hc.
  assert (Hok : canonical_ok w)
    by (destruct Hreach; [eapply reachable_app|eapply reachable_no_auth]; eassumption).
  unfold canonical in Hc. destruct (sales_data w) as [l|] eqn:Hsd; [|discriminate].
  destruct (Hok l Hsd) as (df' & Hl & Hdf). rewrite Hc in Hl. injection Hl as <-.
  pose proof Hc as Hrows. rewrite (sales_frame_rows df Hdf) in Hrows.
  split; [apply Hdf|]. split; [rewrite (sales_frame_rows df Hdf); reflexivity|].
  split.
  - destruct (app_data_processing_run w l _ (in_regions inp) (status_filter inp) Hsd Hrows)
      as (v & w' & E & W).
    destruct (working_frame w l v _ _ w' Hsd Hc W) as (_ & Hc' & _ & Hv & _).
    eexists v, w', _. split; [exact E|]. split; [exact Hv|].
    split; [apply view_of_rows_frame|]. split; [apply rows_of_view|].
    split; [|exact Hc']. unfold view_of_rows at 2. now rewrite rows_of_view.
  - destruct (no_auth_data_processing_run w l _ (in_products inp) (in_regions inp)
                (status_filter inp) Hsd Hrows) as (v & w' & E & W).
    destruct (working_frame w l v _ _ w' Hsd Hc W) as (_ & Hc' & _ & Hv & _).
    eexists v, w', _. split; [exact E|]. split; [exact Hv|].
    split; [apply view_of_rows_frame|]. split; [apply rows_of_view|].
    split; [|exact Hc']. unfold view_of_rows at 2. now rewrite rows_of_view.
Qed.

Lemma idle_plausible (status : option bool) : plausible (idle status).
Proof. split; intros df; split; auto. Qed.

Lemma revenue_is_derived_each_pass_witness :
  let w := run (AppNoAuth.main (fun _ _ => "") (fun l => l)) (idle None) empty_session in
  let df := new_sales_data no_draws in
  dtypes df = sales_dtypes
  /\ get_column df "Revenue" = None
  /\ (exists v w' view,
        App.filter_pass (idle None) w = (Ok v, w')
        /\ heap w' !! v = Some view
        /\ view_frame view
        /\ rows_of view
           = List.filter (passes (in_regions (idle None)) (status_filter (idle None))) (rows_of df)
        /\ revenue_of view = map (fun r => Units_Sold r * Unit_Price r) (rows_of view)
        /\ canonical w' = Some df)
  /\ (exists v w' view,
        AppNoAuth.filter_pass (idle None) w = (Ok v, w')
        /\ heap w' !! v = Some view
        /\ view_frame view
        /\ rows_of view
           = List.filter (passes_no_auth (in_products (idle None)) (in_regions (idle None))
                            (status_filter (idle None))) (rows_of df)
        /\ revenue_of view = map (fun r => Units_Sold r * Unit_Price r) (rows_of view)
        /\ canonical w' = Some df).
Proof.
  apply (revenue_is_derived_each_pass (fun _ _ => "") (fun l => l)
           (run (AppNoAuth.main (fun _ _ => "") (fun l => l)) (idle None) empty_session)
           (new_sales_data no_draws) (idle None)).
  - right. apply reach_run; [apply reach_start|apply idle_plausible].
  - vm_compute. reflexivity.
Defined.

(** ** Top products *)

(** *** The group keys *)

Lemma name_lt_trans : Relations_1.Transitive name_lt.
Proof.
  intros a b c Hab Hbc.
  exact (StrictOrder_Transitive (R := String_as_OT.lt) a b c Hab Hbc).
Qed.

Lemma name_lt_irrefl (a : string) : ~ name_lt a a.
Proof. exact (StrictOrder_Irreflexive (R := String_as_OT.lt) a). Qed.

Lemma compare_gt_lt (k x : string) : String.compare k x = Gt -> name_lt x k.
Proof.
  unfold name_lt. rewrite String.compare_antisym.
  now destruct (String.compare x k).
Qed.

Lemma insert_key_In (k x : string) (l : list string) :
  In x (insert_key k l) <-> x = k \/ In x l.
Proof.
  induction l as [|y l IH]; cbn [insert_key].
  - cbn. intuition.
  - destruct (String.compare k y) eqn:E; cbn [In].
    + apply String.compare_eq_iff in E. subst. intuition.
    + intuition.
    + rewrite IH. intuition.
Qed.

Lemma insert_key_HdRel (a k : string) (l : list string) :
  name_lt a k -> HdRel name_lt a l -> HdRel name_lt a (insert_key k l).
Proof.
  intros Hak Hl. destruct l as [|y l]; cbn [insert_key]; [now constructor|].
  inversion Hl; subst. destruct (String.compare k y); now constructor.
Qed.

Lemma insert_key_sorted (k : string) (l : list string) :
  Sorted name_lt l -> Sorted name_lt (insert_key k l).
Proof.
  induction 1 as [|y l Hl IH Hy]; cbn [insert_key]; [repeat constructor|].
  destruct (String.compare k y) eqn:E.
  - now constructor.
  - constructor; [now constructor|now constructor].
  - constructor; [assumption|]. apply insert_key_HdRel; [|assumption].
    now apply compare_gt_lt.
Qed.

Lemma group_keys_In (x : string) (ks : list string) : In x (group_keys ks) <-> In x ks.
Proof.
  induction ks as [|k ks IH]; [reflexivity|].
  cbn [group_keys fold_right]. fold (group_keys ks).
  rewrite insert_key_In, IH. cbn. intuition.
Qed.

Lemma group_keys_sorted (ks : list string) : StronglySorted name_lt (group_keys ks).
Proof.
  apply Sorted_StronglySorted; [exact name_lt_trans|].
  induction ks as [|k ks IH]; [constructor|].
  cbn [group_keys fold_right]. now apply insert_key_sorted.
Qed.

Lemma sorted_names_NoDup (l : list string) : StronglySorted name_lt l -> NoDup l.
Proof.
  induction 1 as [|a l _ IH Ha]; constructor; [|assumption].
  intros Hin. apply list_elem_of_In in Hin.
  rewrite List.Forall_forall in Ha. exact (name_lt_irrefl a (Ha a Hin)).
Qed.

(** Two lists in strictly ascending order with the same members are the same
    list. *)
Lemma sorted_names_unique (l l' : list string) :
  StronglySorted name_lt l -> StronglySorted name_lt l' ->
  (forall x, In x l <-> In x l') -> l = l'.
Proof.
  intros Hl. revert l'. induction Hl as [|a l Hl IH Ha]; intros l' Hl' Hsame.
  - destruct l' as [|b l']; [reflexivity|]. destruct (proj2 (Hsame b)). now left.
  - destruct Hl' as [|b l' Hl' Hb]; [destruct (proj1 (Hsame a)); now left|].
    rewrite List.Forall_forall in Ha, Hb.
    assert (Hab : a = b).
    { destruct (proj1 (Hsame a)) as [Heq|Hin]; [now left|congruence|].
      destruct (proj2 (Hsame b)) as [Heq|Hin']; [now left|congruence|].
      exfalso. apply (name_lt_irrefl a).
      exact (name_lt_trans _ _ _ (Ha b Hin') (Hb a Hin)). }
    subst b. f_equal. apply IH; [assumption|]. intros x. split; intros Hx.
    + destruct (proj1 (Hsame x)) as [Heq|Hin]; [now right| |assumption].
      subst x. exfalso. exact (name_lt_irrefl a (Ha a Hx)).
    + destruct (proj2 (Hsame x)) as [Heq|Hin]; [now right| |assumption].
      subst x. exfalso. exact (name_lt_irrefl a (Hb a Hx)).
Qed.

Lemma group_keys_permutation (ks ks' : list string) :
  Permutation ks ks' -> group_keys ks = group_keys ks'.
Proof.
  intros Hperm. apply sorted_names_unique; try apply group_keys_sorted.
  intros x. rewrite !group_keys_In.
  split; apply Permutation_in; [assumption|now symmetry].
Qed.

(** *** The sums *)

Lemma zsum_permutation (l l' : list Z) : Permutation l l' -> zsum l = zsum l'.
Proof. unfold zsum. induction 1; cbn [fold_right]; lia. Qed.

Lemma values_of_rows (p : string) (rows : list Row) (rev : list Z) :
  values_of p (map Product rows) rev
  = map snd (List.filter (fun x => String.eqb (Product (fst x)) p) (combine rows rev)).
Proof.
  revert rev. induction rows as [|r rows IH]; intros [|v rev]; try reflexivity.
  cbn [map values_of combine List.filter fst].
  destruct (String.eqb (Product r) p); cbn [map snd]; now rewrite IH.
Qed.

Lemma view_rows_view (rows : list Row) (rev : list Z) :
  view_rows (frame_of_rows rows ++ [("Revenue", Float64S rev)]) = combine rows rev.
Proof. unfold view_rows. now rewrite rows_of_view. Qed.

Lemma filter_permutation {A} (f : A -> bool) (l l' : list A) :
  Permutation l l' -> Permutation (List.filter f l) (List.filter f l').
Proof.
  induction 1 as [|x l l' _ IH|x y l|l l' l'' _ IH1 _ IH2]; cbn [List.filter].
  - constructor.
  - destruct (f x); [now constructor|assumption].
  - destruct (f x), (f y); try reflexivity. constructor.
  - now transitivity (List.filter f l').
Qed.

Lemma product_total_permutation (view view' : DataFrame) (p : string) :
  Permutation (view_rows view) (view_rows view') ->
  product_total view p = product_total view' p.
Proof.
  intros Hperm. unfold product_total.
  apply zsum_permutation, Permutation_map, filter_permutation, Hperm.
Qed.

Lemma groupby_sum_view (rows : list Row) (rev : list Z) :
  groupby_sum (frame_of_rows rows ++ [("Revenue", Float64S rev)]) "Product" "Revenue"
  = Ok (map (fun k => (k, product_total (frame_of_rows rows ++ [("Revenue", Float64S rev)]) k))
          (group_keys (map Product rows))).
Proof.
  unfold groupby_sum.
  change (getitem (frame_of_rows rows ++ [("Revenue", Float64S rev)]) "Product")
    with (Ok (ObjectS (map Product rows))).
  change (getitem (frame_of_rows rows ++ [("Revenue", Float64S rev)]) "Revenue")
    with (Ok (Float64S rev)).
  cbn [obind]. f_equal. apply map_ext. intros k.
  unfold product_total. now rewrite view_rows_view, values_of_rows.
Qed.

(** *** The head of a sorted series *)

Lemma firstn_In_split {A} (x : A) (n : nat) (l : list A) :
  In x (firstn n l) -> exists l1 l2, l = l1 ++ x :: l2 /\ (length l1 < n)%nat.
Proof.
  revert n. induction l as [|a l IH]; intros [|n]; cbn [firstn In]; try tauto.
  intros [->|Hin].
  - exists [], l. split; [reflexivity|cbn; lia].
  - destruct (IH n Hin) as (l1 & l2 & -> & Hlen).
    exists (a :: l1), l2. split; [reflexivity|cbn; lia].
Qed.

Lemma firstn_In {A} (x : A) (n : nat) (l : list A) : In x (firstn n l) -> In x l.
Proof.
  intros Hin. destruct (firstn_In_split x n l Hin) as (l1 & l2 & -> & _).
  apply in_elt.
Qed.

Lemma firstn_strongly_sorted {A} (R : A -> A -> Prop) (n : nat) (l : list A) :
  StronglySorted R l -> StronglySorted R (firstn n l).
Proof.
  intros Hl. revert n. induction Hl as [|a l _ IH Ha]; intros [|n]; cbn [firstn];
    try constructor; [apply IH|].
  rewrite List.Forall_forall in *. intros x Hx. apply Ha.
  eapply firstn_In; eassumption.
Qed.

Lemma firstn_NoDup {A} (n : nat) (l : list A) : NoDup l -> NoDup (firstn n l).
Proof.
  intros Hl. revert n. induction Hl as [|a l Ha _ IH]; intros [|n]; cbn [firstn];
    try constructor; [|apply IH].
  intros Hin. apply Ha. apply list_elem_of_In. apply list_elem_of_In in Hin.
  eapply firstn_In; eassumption.
Qed.

Lemma strongly_sorted_after {A} (R : A -> A -> Prop) (l1 l2 : list A) (x : A) :
  StronglySorted R (l1 ++ x :: l2) -> Forall (R x) l2.
Proof.
  induction l1 as [|a l1 IH]; cbn [app]; intros H; apply StronglySorted_inv in H as [H1 H2];
    [assumption|now apply IH].
Qed.

Lemma NoDup_incl_le {A} (l l' : list A) :
  NoDup l -> incl l l' -> (length l <= length l')%nat.
Proof.
  intros Hl Hincl. apply List.NoDup_incl_length; [|assumption].
  now apply NoDup_ListNoDup.
Qed.

(** *** The contract is met by insertion sort *)

Lemma insert_desc_permutation (x : string * Z) (l : list (string * Z)) :
  Permutation (insert_desc x l) (x :: l).
Proof.
  induction l as [|y l IH]; cbn [insert_desc]; [reflexivity|].
  destruct (Z.ltb (snd y) (snd x)); [reflexivity|].
  rewrite IH. apply perm_swap.
Qed.

Lemma insert_desc_sorted (x : string * Z) (l : list (string * Z)) :
  StronglySorted (fun a b => snd b <= snd a) l ->
  StronglySorted (fun a b => snd b <= snd a) (insert_desc x l).
Proof.
  induction 1 as [|y l Hl IH Hy]; cbn [insert_desc]; [repeat constructor|].
  destruct (Z.ltb_spec (snd y) (snd x)) as [Hlt|Hge].
  - constructor; [now constructor|]. constructor; [lia|].
    rewrite List.Forall_forall in *. intros z Hz. specialize (Hy z Hz). cbn beta in Hy. lia.
  - constructor; [assumption|].
    rewrite List.Forall_forall in *. intros z Hz.
    apply (Permutation_in _ (insert_desc_permutation x l)) in Hz.
    destruct Hz as [<-|Hz]; [assumption|now apply Hy].
Qed.

Lemma insertion_sort_desc_contract : sort_contract insertion_sort_desc.
Proof.
  intros sums. unfold insertion_sort_desc. induction sums as [|x sums [IHp IHs]];
    cbn [fold_right]; [split; constructor|].
  split.
  - rewrite insert_desc_permutation. now constructor.
  - now apply insert_desc_sorted.
Qed.

(** *** The sums of a view, and its top products *)

Lemma map_strongly_sorted {A B} (R : A -> A -> Prop) (R' : B -> B -> Prop) (f : A -> B)
    (l : list A) :
  (forall a b, R a b -> R' (f a) (f b)) ->
  StronglySorted R l -> StronglySorted R' (map f l).
Proof.
  intros Hf. induction 1 as [|a l _ IH Ha]; cbn [map]; constructor; [assumption|].
  rewrite List.Forall_forall in *. intros y Hy.
  apply in_map_iff in Hy as (x & <- & Hx). auto.
Qed.

Lemma map_fst_combine {A B} (l : list A) (l' : list B) :
  length l' = length l -> map fst (combine l l') = l.
Proof.
  revert l'. induction l as [|x l IH]; intros [|y l'] Hlen; try discriminate; [reflexivity|].
  cbn. f_equal. apply IH. now injection Hlen.
Qed.

(** The series of sums of a well-formed view: one entry for each product of
    the view, with its total, the products in ascending order of name. *)
Lemma view_sums (view : DataFrame) :
  view_frame view ->
  exists sums,
    groupby_sum view "Product" "Revenue" = Ok sums
    /\ sums = map (fun k => (k, product_total view k)) (group_keys (map Product (rows_of view)))
    /\ StronglySorted (fun a b => name_lt (fst a) (fst b)) sums
    /\ NoDup (map fst sums)
    /\ (forall p v, In (p, v) sums <->
          In p (map Product (rows_of view)) /\ v = product_total view p).
Proof.
  intros Hview. destruct (view_frame_inv view Hview) as (rev & Hv & _).
  eexists. split; [rewrite Hv at 1; rewrite groupby_sum_view, <- Hv; reflexivity|].
  split; [reflexivity|]. split; [|split].
  - apply (map_strongly_sorted name_lt); [auto|apply group_keys_sorted].
  - rewrite map_map. cbn [fst]. rewrite map_id. apply sorted_names_NoDup, group_keys_sorted.
  - intros p v. rewrite in_map_iff. split.
    + intros (k & [= <- <-] & Hk). split; [now rewrite group_keys_In in Hk|reflexivity].
    + intros [Hp ->]. exists p. split; [reflexivity|]. now rewrite group_keys_In.
Qed.

Lemma view_sums_permutation (view view' : DataFrame) :
  view_frame view -> view_frame view' ->
  Permutation (view_rows view) (view_rows view') ->
  groupby_sum view' "Product" "Revenue" = groupby_sum view "Product" "Revenue".
Proof.
  intros Hview Hview' Hperm.
  destruct (view_sums view Hview) as (sums & -> & -> & _).
  destruct (view_sums view' Hview') as (sums' & -> & -> & _).
  destruct (view_frame_inv view Hview) as (rev & Hv & Hlen).
  destruct (view_frame_inv view' Hview') as (rev' & Hv' & Hlen').
  assert (Hrows : Permutation (rows_of view) (rows_of view')).
  { rewrite <- (map_fst_combine (rows_of view) rev Hlen).
    rewrite <- (map_fst_combine (rows_of view') rev' Hlen').
    rewrite <- view_rows_view, <- Hv, <- view_rows_view, <- Hv'.
    now apply Permutation_map. }
  rewrite (group_keys_permutation _ _ (Permutation_map Product Hrows)).
  f_equal. apply map_ext. intros k. f_equal. symmetry.
  now apply product_total_permutation.
Qed.

(** C6, as amended.  The top-[n] table of a well-formed view holds at most
    [n] products, each once and with its total revenue over the rows of the
    view, in descending order of total; a product with a strictly smaller
    total than [n] others is not in it.  It is the head of what [sort_values]
    makes of the series of sums, which lists the products in ascending order
    of name: how products with equal totals follow each other is decided
    there, and is the same for any view with the same rows in another
    order. *)
Theorem top_products_by_revenue (sort_values : list (string * Z) -> list (string * Z))
    (n : nat) (view : DataFrame) :
  sort_contract sort_values ->
  view_frame view ->
  exists sums top,
    groupby_sum view "Product" "Revenue" = Ok sums
    /\ StronglySorted (fun a b => name_lt (fst a) (fst b)) sums
    /\ top_products sort_values n view = Ok top
    /\ top = firstn n (sort_values sums)
    /\ (length top <= n)%nat
    /\ StronglySorted (fun a b => snd b <= snd a) top
    /\ NoDup (map fst top)
    /\ (forall p v, In (p, v) top ->
          In p (map Product (rows_of view)) /\ v = product_total view p)
    /\ (forall p others,
          NoDup others -> length others = n ->
          (forall q, In q others ->
             In q (map Product (rows_of view))
             /\ product_total view p < product_total view q) ->
          ~ In p (map fst top))
    /\ (forall view',
          view_frame view' -> Permutation (view_rows view) (view_rows view') ->
          top_products sort_values n view' = Ok top).
Proof.
  intros Hsort Hview.
  destruct (view_sums view Hview) as (sums & Hsums & _ & Hnames & Hnodup & Hentries).
  destruct (Hsort sums) as [Hperm Hsorted].
  assert (Htop : forall p v, In (p, v) (firstn n (sort_values sums)) ->
                   In p (map Product (rows_of view)) /\ v = product_total view p).
  { intros p v Hin. apply Hentries. apply (Permutation_in _ Hperm).
    eapply firstn_In; eassumption. }
  exists sums, (firstn n (sort_values sums)).
  split; [assumption|]. split; [assumption|].
  split; [unfold top_products; now rewrite Hsums|]. split; [reflexivity|].
  split; [apply List.firstn_le_length|].
  split; [now apply firstn_strongly_sorted|].
  split; [|split; [exact Htop|split]].
  - rewrite <- firstn_map. apply firstn_NoDup. now rewrite (Permutation_map fst Hperm).
  - intros p others Hnd Hlen Hothers Hin.
    apply in_map_iff in Hin as ([p' v] & Hp & Hin). cbn [fst] in Hp. subst p'.
    destruct (Htop p v Hin) as [_ ->].
    destruct (firstn_In_split _ _ _ Hin) as (l1 & l2 & Hsplit & Hl1).
    rewrite Hsplit in Hsorted, Hperm.
    pose proof (strongly_sorted_after _ _ _ _ Hsorted) as Hafter.
    rewrite List.Forall_forall in Hafter.
    assert (Hincl : incl others (map fst l1)).
    { intros q Hq. destruct (Hothers q Hq) as [Hqin Hlt].
      assert (Hqs : In (q, product_total view q) sums) by now apply Hentries.
      apply (Permutation_in _ (Permutation_sym Hperm)) in Hqs.
      apply in_app_or in Hqs as [Hqs|[Hqs|Hqs]].
      - apply in_map_iff. now exists (q, product_total view q).
      - injection Hqs as _ Heq. lia.
      - specialize (Hafter _ Hqs). cbn [snd] in Hafter. lia. }
    pose proof (NoDup_incl_le _ _ Hnd Hincl) as Hle.
    rewrite length_map in Hle. lia.
  - intros view' Hview' Hrows. unfold top_products.
    now rewrite (view_sums_permutation view view' Hview Hview' Hrows), Hsums.
Qed.

Lemma top_products_by_revenue_witness :
  exists sums top,
    groupby_sum laptop_first "Product" "Revenue" = Ok sums
    /\ StronglySorted (fun a b => name_lt (fst a) (fst b)) sums
    /\ top_products insertion_sort_desc 2 laptop_first = Ok top
    /\ top = firstn 2 (insertion_sort_desc sums)
    /\ (length top <= 2)%nat
    /\ StronglySorted (fun a b => snd b <= snd a) top
    /\ NoDup (map fst top)
    /\ (forall p v, In (p, v) top ->
          In p (map Product (rows_of laptop_first)) /\ v = product_total laptop_first p)
    /\ (forall p others,
          NoDup others -> length others = 2%nat ->
          (forall q, In q others ->
             In q (map Product (rows_of laptop_first))
             /\ product_total laptop_first p < product_total laptop_first q) ->
          ~ In p (map fst top))
    /\ (forall view',
          view_frame view' -> Permutation (view_rows laptop_first) (view_rows view') ->
          top_products insertion_sort_desc 2 view' = Ok top).
Proof.
  apply (top_products_by_revenue insertion_sort_desc 2 laptop_first).
  - exact insertion_sort_desc_contract.
  - split; [reflexivity|]. unfold rectangular. repeat constructor.
Defined.

(** C6 as claimed fails.  Laptop and Mouse have the same total in both views;
    Laptop is met first in one, Mouse in the other.  Both views give
    [sort_values] the same series of sums, so whatever order it gives the two,
    in one of the views the product met second comes first. *)
Lemma tie_break_is_not_first_seen :
  ~ exists sort_values,
      sort_contract sort_values
      /\ (exists top,
            top_products sort_values 2 laptop_first = Ok top /\ ties_first_seen laptop_first top)
      /\ (exists top,
            top_products sort_values 2 mouse_first = Ok top /\ ties_first_seen mouse_first top).
Proof.
  intros (sort_values & Hsort & (top1 & E1 & T1) & (top2 & E2 & T2)).
  set (sums := [("Laptop", 30000); ("Mouse", 30000); ("Printer", 10000)]).
  assert (G1 : groupby_sum laptop_first "Product" "Revenue" = Ok sums)
    by (vm_compute; reflexivity).
  assert (G2 : groupby_sum mouse_first "Product" "Revenue" = Ok sums)
    by (vm_compute; reflexivity).
  unfold top_products in E1, E2. rewrite G1 in E1. rewrite G2 in E2.
  cbn [obind] in E1, E2. injection E1 as <-. injection E2 as <-.
  destruct (Hsort sums) as [Hperm Hsorted].
  pose proof (Permutation_length Hperm) as Hlen.
  pose proof (Permutation_in _ (Permutation_sym Hperm) (or_introl eq_refl)) as HL.
  pose proof (Permutation_in _ (Permutation_sym Hperm) (or_intror (or_introl eq_refl))) as HM.
  pose proof (Permutation_in _ (Permutation_sym Hperm)
                (or_intror (or_intror (or_introl eq_refl)))) as HP.
  destruct (sort_values sums) as [|x [|y [|z [|? ?]]]]; try discriminate Hlen.
  cbn [In] in HL, HM, HP.
  destruct HL as [HL|[HL|[HL|[]]]]; subst;
    destruct HM as [HM|[HM|[HM|[]]]]; try discriminate HM; subst;
    destruct HP as [HP|[HP|[HP|[]]]]; try discriminate HP; subst;
    repeat match goal with
           | H : StronglySorted _ (_ :: _) |- _ => apply StronglySorted_inv in H as [? ?]
           | H : Forall _ (_ :: _) |- _ => inversion H; clear H; subst
           end;
    cbn [snd] in *; try lia.
  - specialize (T2 0%nat 1%nat "Laptop" "Mouse" 30000 ltac:(lia) eq_refl eq_refl).
    vm_compute in T2. lia.
  - specialize (T1 0%nat 1%nat "Mouse" "Laptop" 30000 ltac:(lia) eq_refl eq_refl).
    vm_compute in T1. lia.
Qed.

(** * More of the scripts *)

(** ** The seed *)

Lemma new_sales_data_rows (d : Draws) :
  new_sales_data d = frame_of_rows (map (seed_row d) (seq 0 100)).
Proof.
  unfold new_sales_data, frame_of_rows, random_choice, random_randint,
    random_uniform_round2, date_range.
  rewrite !map_map. reflexivity.
Qed.

Lemma rows_of_new_sales_data (d : Draws) :
  rows_of (new_sales_data d) = map (seed_row d) (seq 0 100).
Proof. rewrite new_sales_data_rows. apply rows_of_frame_of_rows. Qed.

Lemma nth_mod_elem_of (options : list string) (k : nat) :
  options <> [] -> nth (k mod length options) options "" ∈ options.
Proof.
  intros Hne. apply list_elem_of_In, nth_In, Nat.mod_upper_bound.
  destruct options; [congruence|discriminate].
Qed.

(** X1.  Whatever the generator draws, the seeded dataset is a well-formed
    sales frame of 100 rows, dated day by day from 2024-01-01; each row has one
    of the five products, one of the four regions, one of the three statuses,
    from 1 to 49 units, a price from 20.00 to 1500.00 and a rating from 1 to
    5. *)
Theorem seed_in_range (d : Draws) :
  sales_frame (new_sales_data d)
  /\ length (rows_of (new_sales_data d)) = 100%nat
  /\ map Date (rows_of (new_sales_data d)) = map (fun i => 19723 + Z.of_nat i) (seq 0 100)
  /\ forall r, r ∈ rows_of (new_sales_data d) ->
       Product r ∈ ["Laptop"; "Mouse"; "Monitor"; "Headset"; "Printer"]
       /\ Region r ∈ ["North"; "South"; "East"; "West"]
       /\ Status r ∈ ["Completed"; "Pending"; "Cancelled"]
       /\ 1 <= Units_Sold r < 50
       /\ 2000 <= Unit_Price r <= 150000
       /\ 1 <= Rating r < 6.
Proof.
  split; [apply new_sales_data_frame|]. rewrite rows_of_new_sales_data.
  split; [now rewrite length_map, length_seq|].
  split; [now rewrite map_map|].
  intros r Hr. apply list_elem_of_In, in_map_iff in Hr as (i & <- & _).
  cbn [seed_row Product Region Status Units_Sold Unit_Price Rating].
  split; [apply (nth_mod_elem_of [_; _; _; _; _]); discriminate|].
  split; [apply (nth_mod_elem_of [_; _; _; _]); discriminate|].
  split; [apply (nth_mod_elem_of [_; _; _]); discriminate|].
  pose proof (Z.mod_pos_bound (Z.of_nat (units_draw d i)) 49 ltac:(lia)).
  pose proof (Z.mod_pos_bound (Z.of_nat (price_draw d i)) 148001 ltac:(lia)).
  pose proof (Z.mod_pos_bound (Z.of_nat (rating_draw d i)) 5 ltac:(lia)).
  lia.
Qed.

(** X2.  Every row of the seeded dataset meets the column constraints the
    "Data Editor" tab puts on edits. *)
Theorem seed_meets_column_config (d : Draws) (r : Row) :
  r ∈ rows_of (new_sales_data d) -> column_config_valid r = true.
Proof.
  intros Hr. destruct (seed_in_range d) as (_ & _ & _ & Hrange).
  destruct (Hrange r Hr) as (Hp & _ & Hs & _ & Hprice & Hrating).
  unfold column_config_valid. rewrite !andb_true_iff, !Z.leb_le, bool_decide_eq_true.
  repeat split; try lia; try assumption.
  repeat (apply elem_of_cons in Hp as [-> | Hp]; [reflexivity|]).
  now apply elem_of_nil in Hp.
Qed.

Lemma seed_meets_column_config_witness :
  column_config_valid (seed_row no_draws 0) = true.
Proof.
  apply (seed_meets_column_config no_draws (seed_row no_draws 0)).
  rewrite rows_of_new_sales_data. apply list_elem_of_In. now left.
Defined.

(** ** The KPIs of a view *)

Lemma either_view (df : DataFrame) (selected_products selected_regions : list string)
    (status_filter : string) (view : DataFrame) :
  sales_frame df ->
  filtered_view (App.data_processing selected_regions status_filter) df = Ok view
  \/ filtered_view (AppNoAuth.data_processing selected_products selected_regions status_filter) df
     = Ok view ->
  exists rows,
    view = view_of_rows rows /\ rows_of view = rows
    /\ forall r, r ∈ rows -> r ∈ rows_of df /\ status_passes status_filter r = true.
Proof.
  intros Hdf [Hview | Hview].
  - rewrite app_filtered_view in Hview by assumption. injection Hview as <-.
    eexists. split; [reflexivity|]. split; [apply rows_of_view|].
    intros r Hr. apply filter_elem_of in Hr as [Hin Hr]. split; [assumption|].
    unfold passes in Hr. now apply andb_true_iff in Hr as [_ Hr].
  - rewrite no_auth_filtered_view in Hview by assumption. injection Hview as <-.
    eexists. split; [reflexivity|]. split; [apply rows_of_view|].
    intros r Hr. apply filter_elem_of in Hr as [Hin Hr]. split; [assumption|].
    unfold passes_no_auth in Hr. now apply andb_true_iff in Hr as [_ Hr].
Qed.

Lemma wrap64_small (z : Z) : - 2 ^ 63 <= z < 2 ^ 63 -> wrap64 z = z.
Proof. intros Hz. unfold wrap64. rewrite Z.mod_small; lia. Qed.

(** X3.  For the view either script filters out of a well-formed dataset, the
    KPIs are computed without an exception: the total revenue is the sum of
    Units Sold times Unit Price over the rows of the view, the total of units
    is their sum in int64 arithmetic (the plain sum when it fits), and for a
    view without rows both are 0, the completion rate is 0 and the average
    rating is NaN. *)
Theorem kpi_totals (df : DataFrame) (selected_products selected_regions : list string)
    (status_filter : string) (view : DataFrame) :
  sales_frame df ->
  filtered_view (App.data_processing selected_regions status_filter) df = Ok view
  \/ filtered_view (AppNoAuth.data_processing selected_products selected_regions status_filter) df
     = Ok view ->
  exists k,
    kpis view = Ok k
    /\ total_revenue k = zsum (map (fun r => Units_Sold r * Unit_Price r) (rows_of view))
    /\ total_units k = wrap64 (zsum (map Units_Sold (rows_of view)))
    /\ (- 2 ^ 63 <= zsum (map Units_Sold (rows_of view)) < 2 ^ 63 ->
        total_units k = zsum (map Units_Sold (rows_of view)))
    /\ (rows_of view = [] ->
        total_revenue k = 0 /\ total_units k = 0 /\ avg_rating k = NaN
        /\ completion_rate k = 0%Q).
Proof.
  intros Hdf Hview.
  destruct (either_view df selected_products selected_regions status_filter view Hdf Hview)
    as (rows & -> & Hrows & _).
  rewrite Hrows. unfold view_of_rows.
  destruct (kpis_view rows (map (fun r => Units_Sold r * Unit_Price r) rows))
    as (k & Hk & Hrev & Hunits & Havg & _ & Hrate).
  exists k. split; [assumption|]. split; [assumption|]. split; [assumption|].
  split; [intros Hfit; rewrite Hunits; now apply wrap64_small|].
  intros ->. rewrite Hrev, Hunits, Havg, Hrate. repeat split.
Qed.

Lemma kpi_totals_witness :
  exists k,
    kpis (view_of_rows [row1; row3]) = Ok k
    /\ total_revenue k
       = zsum (map (fun r => Units_Sold r * Unit_Price r) (rows_of (view_of_rows [row1; row3])))
    /\ total_units k = wrap64 (zsum (map Units_Sold (rows_of (view_of_rows [row1; row3]))))
    /\ (- 2 ^ 63 <= zsum (map Units_Sold (rows_of (view_of_rows [row1; row3]))) < 2 ^ 63 ->
        total_units k = zsum (map Units_Sold (rows_of (view_of_rows [row1; row3]))))
    /\ (rows_of (view_of_rows [row1; row3]) = [] ->
        total_revenue k = 0 /\ total_units k = 0 /\ avg_rating k = NaN
        /\ completion_rate k = 0%Q).
Proof.
  apply (kpi_totals three_rows [] ["North"] "All" (view_of_rows [row1; row3])).
  - exact three_rows_sales_frame.
  - left. vm_compute. reflexivity.
Defined.

Lemma filter_length_le {A} (f : A -> bool) (l : list A) :
  (length (List.filter f l) <= length l)%nat.
Proof. induction l as [|x l IH]; cbn; [lia|]. destruct (f x); cbn; lia. Qed.

Lemma inject_Z_length_pos {A} (x : A) (l : list A) :
  (0 < inject_Z (Z.of_nat (length (x :: l))))%Q.
Proof. unfold Qlt. cbn [Qnum Qden inject_Z length]. lia. Qed.

(** X4.  The completion rate of a well-formed view lies between 0 and
    100. *)
Theorem completion_rate_in_range (view : DataFrame) :
  view_frame view ->
  exists k, kpis view = Ok k /\ (0 <= completion_rate k <= 100)%Q.
Proof.
  intros Hview. destruct (view_frame_inv view Hview) as (rev & Hv & _).
  destruct (kpis_view (rows_of view) rev) as (k & Hk & _ & _ & _ & _ & Hrate).
  rewrite <- Hv in Hk. exists k. split; [assumption|]. rewrite Hrate.
  destruct (rows_of view) as [|r rows]; [split; discriminate|].
  pose proof (inject_Z_length_pos r rows) as Hpos.
  pose proof (filter_length_le completed (r :: rows)) as Hle.
  set (c := inject_Z (Z.of_nat (length (List.filter completed (r :: rows))))) in *.
  set (n := inject_Z (Z.of_nat (length (r :: rows)))) in *.
  assert (Hc0 : (0 <= c)%Q)
    by (unfold c; change 0%Q with (inject_Z 0); rewrite <- Zle_Qle; lia).
  assert (Hcn : (c <= n)%Q) by (unfold c, n; rewrite <- Zle_Qle; lia).
  assert (H0 : (0 <= c / n)%Q) by (apply Qle_shift_div_l; [assumption|]; now rewrite Qmult_0_l).
  assert (H1 : (c / n <= 1)%Q) by (apply Qle_shift_div_r; [assumption|]; now rewrite Qmult_1_l).
  split.
  - apply Qmult_le_0_compat; [assumption|discriminate].
  - apply (Qle_trans _ (1 * 100)); [|unfold Qle; cbn; lia].
    apply Qmult_le_compat_r; [assumption|discriminate].
Qed.

Lemma completion_rate_in_range_witness :
  exists k, kpis (view_of_rows [row1; row2; row3]) = Ok k /\ (0 <= completion_rate k <= 100)%Q.
Proof.
  apply (completion_rate_in_range (view_of_rows [row1; row2; row3])).
  apply view_of_rows_frame.
Defined.

Lemma rating_sum_bounds (rows : list Row) :
  (forall r, r ∈ rows -> 1 <= Rating r <= 5) ->
  Z.of_nat (length rows) <= zsum (map Rating rows) <= 5 * Z.of_nat (length rows).
Proof.
  induction rows as [|r rows IH]; intros Hall; [cbn; lia|].
  assert (Hr : 1 <= Rating r <= 5) by (apply Hall, list_elem_of_In; now left).
  assert (Hrest : forall r', r' ∈ rows -> 1 <= Rating r' <= 5).
  { intros r' Hr'. apply Hall, list_elem_of_In. right. now apply list_elem_of_In. }
  specialize (IH Hrest). unfold zsum in *. cbn [map fold_right length]. lia.
Qed.

(** X5.  When every rating of a well-formed view with rows lies from 1 to 5
    (as the seed draws them and "Data Editor" constrains them), so does the
    average rating. *)
Theorem avg_rating_in_range (view : DataFrame) :
  view_frame view ->
  rows_of view <> [] ->
  (forall r, r ∈ rows_of view -> 1 <= Rating r <= 5) ->
  exists k q, kpis view = Ok k /\ avg_rating k = Fin q /\ (1 <= q <= 5)%Q.
Proof.
  intros Hview Hne Hall. destruct (view_frame_inv view Hview) as (rev & Hv & _).
  destruct (kpis_view (rows_of view) rev) as (k & Hk & _ & _ & Havg & _).
  rewrite <- Hv in Hk. pose proof (rating_sum_bounds _ Hall) as Hsum.
  destruct (rows_of view) as [|r rows]; [congruence|].
  eexists k, _. split; [assumption|]. split; [exact Havg|].
  pose proof (inject_Z_length_pos r rows) as Hpos.
  split.
  - apply Qle_shift_div_l; [assumption|]. rewrite Qmult_1_l, <- Zle_Qle. lia.
  - apply Qle_shift_div_r; [assumption|].
    change 5%Q with (inject_Z 5). rewrite <- inject_Z_mult, <- Zle_Qle. lia.
Qed.

Lemma avg_rating_in_range_witness :
  exists k q,
    kpis (view_of_rows [row1; row2; row3]) = Ok k /\ avg_rating k = Fin q /\ (1 <= q <= 5)%Q.
Proof.
  apply (avg_rating_in_range (view_of_rows [row1; row2; row3])).
  - apply view_of_rows_frame.
  - discriminate.
  - intros r Hr. apply list_elem_of_In in Hr.
    destruct Hr as [<-|[<-|[<-|[]]]]; cbn; lia.
Defined.

Lemma filter_all {A} (f : A -> bool) (l : list A) :
  (forall x, In x l -> f x = true) -> List.filter f l = l.
Proof.
  induction l as [|x l IH]; intros Hall; [reflexivity|]. cbn [List.filter].
  rewrite (Hall x (or_introl eq_refl)). f_equal. apply IH. intros y Hy. apply Hall. now right.
Qed.

Lemma filter_none {A} (f : A -> bool) (l : list A) :
  (forall x, In x l -> f x = false) -> List.filter f l = [].
Proof.
  induction l as [|x l IH]; intros Hall; [reflexivity|]. cbn [List.filter].
  rewrite (Hall x (or_introl eq_refl)). apply IH. intros y Hy. apply Hall. now right.
Qed.

(** X6.  With the status filter on Completed, a view with rows has a
    completion rate of 100; with any other status filter but All (Pending, in
    the sidebar) it has a completion rate of 0. *)
Theorem completion_rate_under_status_filter (df : DataFrame)
    (selected_products selected_regions : list string) (status_filter : string)
    (view : DataFrame) :
  sales_frame df ->
  status_filter <> "All" ->
  filtered_view (App.data_processing selected_regions status_filter) df = Ok view
  \/ filtered_view (AppNoAuth.data_processing selected_products selected_regions status_filter) df
     = Ok view ->
  rows_of view <> [] ->
  exists k,
    kpis view = Ok k
    /\ (completion_rate k == if String.eqb status_filter "Completed" then 100 else 0)%Q.
Proof.
  intros Hdf Hnot_all Hview Hne.
  destruct (either_view df selected_products selected_regions status_filter view Hdf Hview)
    as (rows & -> & Hrows & Hpass).
  rewrite Hrows in Hne. unfold view_of_rows.
  destruct (kpis_view rows (map (fun r => Units_Sold r * Unit_Price r) rows))
    as (k & Hk & _ & _ & _ & _ & Hrate).
  exists k. split; [assumption|]. rewrite Hrate.
  assert (Hstatus : forall r, In r rows -> Status r = status_filter).
  { intros r Hr. apply list_elem_of_In, Hpass, proj2, status_passes_spec in Hr.
    destruct Hr; congruence. }
  destruct rows as [|r rows]; [congruence|].
  pose proof (inject_Z_length_pos r rows) as Hpos.
  destruct (String.eqb_spec status_filter "Completed") as [->|Hother].
  - rewrite filter_all; [cbv iota; field; intros H0; rewrite H0 in Hpos; discriminate|].
    intros x Hx. unfold completed. rewrite (Hstatus x Hx). reflexivity.
  - rewrite filter_none;
      [cbv iota; change (inject_Z (Z.of_nat (@length Row []))) with 0%Q; field;
       intros H0; rewrite H0 in Hpos; discriminate|].
    intros x Hx. unfold completed. rewrite (Hstatus x Hx). now apply String.eqb_neq.
Qed.

Lemma completion_rate_under_status_filter_witness :
  exists k,
    kpis (view_of_rows [row3]) = Ok k
    /\ (completion_rate k == if String.eqb "Pending" "Completed" then 100 else 0)%Q.
Proof.
  apply (completion_rate_under_status_filter three_rows [] ["North"] "Pending"
           (view_of_rows [row3])).
  - exact three_rows_sales_frame.
  - discriminate.
  - left. vm_compute. reflexivity.
  - discriminate.
Defined.

(** ** The default of the multiselects *)

Lemma unique_In (x : string) (l : list string) : In x (unique l) <-> In x l.
Proof.
  induction l as [|y l IH]; [reflexivity|]. cbn [unique In].
  rewrite filter_In, IH, negb_true_iff, String.eqb_neq.
  destruct (String.eqb_spec x y) as [->|Hne]; [tauto|].
  split; [tauto|]. intros [->|H]; [congruence|]. right. split; [assumption|congruence].
Qed.

Lemma unique_NoDup (l : list string) : NoDup (unique l).
Proof.
  induction l as [|y l IH]; [constructor|]. cbn [unique]. constructor.
  - rewrite list_elem_of_In, filter_In, negb_true_iff, String.eqb_neq. tauto.
  - apply NoDup_ListNoDup, List.NoDup_filter, NoDup_ListNoDup, IH.
Qed.

Lemma selected_all (proj : Row -> string) (rows : list Row) (r : Row) :
  In r rows -> selected (unique (map proj rows)) (proj r) = true.
Proof.
  intros Hr. apply selected_spec. right.
  apply list_elem_of_In, unique_In, in_map, Hr.
Qed.

Lemma column_options_rows (rows : list Row) :
  column_options (frame_of_rows rows) "Region" = Ok (unique (map Region rows))
  /\ column_options (frame_of_rows rows) "Product" = Ok (unique (map Product rows)).
Proof. split; reflexivity. Qed.

(** X7.  The options of "Select Regions" and of "Select Products", which are
    also their defaults, are the regions and the products the dataset holds,
    each once; with these defaults selected the view is the one an empty
    selection gives: the multiselects drop no row until the user deselects
    something. *)
Theorem default_selection_keeps_every_row (df : DataFrame) (status_filter : string) :
  sales_frame df ->
  exists regions products,
    column_options df "Region" = Ok regions
    /\ column_options df "Product" = Ok products
    /\ NoDup regions /\ NoDup products
    /\ (forall x, x ∈ regions <-> exists r, r ∈ rows_of df /\ Region r = x)
    /\ (forall x, x ∈ products <-> exists r, r ∈ rows_of df /\ Product r = x)
    /\ filtered_view (App.data_processing regions status_filter) df
       = filtered_view (App.data_processing [] status_filter) df
    /\ filtered_view (AppNoAuth.data_processing products regions status_filter) df
       = filtered_view (AppNoAuth.data_processing [] [] status_filter) df.
Proof.
  intros Hdf. exists (unique (map Region (rows_of df))), (unique (map Product (rows_of df))).
  pose proof (column_options_rows (rows_of df)) as [Hregions Hproducts].
  rewrite <- (sales_frame_rows df Hdf) in Hregions, Hproducts.
  split; [assumption|]. split; [assumption|].
  split; [apply unique_NoDup|]. split; [apply unique_NoDup|].
  split; [|split].
  - intros x. rewrite list_elem_of_In, unique_In, in_map_iff.
    split; intros (r & H1 & H2); exists r; [split; [now apply list_elem_of_In|assumption]|].
    split; [assumption|now apply list_elem_of_In].
  - intros x. rewrite list_elem_of_In, unique_In, in_map_iff.
    split; intros (r & H1 & H2); exists r; [split; [now apply list_elem_of_In|assumption]|].
    split; [assumption|now apply list_elem_of_In].
  - rewrite !app_filtered_view, !no_auth_filtered_view by assumption.
    split; f_equal; f_equal; apply filter_ext_in; intros r Hr.
    + unfold passes. now rewrite (selected_all Region).
    + unfold passes_no_auth. now rewrite (selected_all Region), (selected_all Product).
Qed.

Lemma default_selection_keeps_every_row_witness :
  exists regions products,
    column_options three_rows "Region" = Ok regions
    /\ column_options three_rows "Product" = Ok products
    /\ NoDup regions /\ NoDup products
    /\ (forall x, x ∈ regions <-> exists r, r ∈ rows_of three_rows /\ Region r = x)
    /\ (forall x, x ∈ products <-> exists r, r ∈ rows_of three_rows /\ Product r = x)
    /\ filtered_view (App.data_processing regions "Pending") three_rows
       = filtered_view (App.data_processing [] "Pending") three_rows
    /\ filtered_view (AppNoAuth.data_processing products regions "Pending") three_rows
       = filtered_view (AppNoAuth.data_processing [] [] "Pending") three_rows.
Proof.
  apply (default_selection_keeps_every_row three_rows "Pending").
  exact three_rows_sales_frame.
Defined.

(** ** The editors *)

Lemma equals_refl (df : DataFrame) : equals df df = true.
Proof. now apply equals_eq. Qed.

Lemma editor_tab_unchanged (user_edit : DataFrame -> DataFrame) (w : world) (l : loc)
    (df : DataFrame) :
  sales_data w = Some l ->
  heap w !! l = Some df ->
  user_edit df = df ->
  exists w',
    editor_tab user_edit w = (Ok tt, w')
    /\ sales_data w' = Some l /\ heap w' !! l = Some df /\ page w' = page w
    /\ heap w ⊆ heap w'.
Proof.
  intros Hsd Hl Hsame. destruct (editor_tab_run user_edit w l df Hsd Hl) as (e & He & ->).
  rewrite Hsame, equals_refl. eexists. split; [reflexivity|]. cbn [sales_data heap page].
  split; [reflexivity|]. split; [|split; [reflexivity|now apply insert_subseteq]].
  rewrite lookup_insert_ne; [assumption|congruence].
Qed.

Lemma editor_tab_changed (user_edit : DataFrame -> DataFrame) (w : world) (l : loc)
    (df : DataFrame) :
  sales_data w = Some l ->
  heap w !! l = Some df ->
  user_edit df <> df ->
  exists w',
    editor_tab user_edit w = (Raise RerunException, w')
    /\ canonical w' = Some (user_edit df) /\ page w' = page w
    /\ heap w ⊆ heap w'.
Proof.
  intros Hsd Hl Hdiff. destruct (editor_tab_run user_edit w l df Hsd Hl) as (e & He & ->).
  destruct (equals (user_edit df) df) eqn:Heq; [now apply equals_eq in Heq|].
  eexists. split; [reflexivity|]. unfold canonical. cbn [sales_data heap page].
  split; [apply lookup_insert_eq|]. split; [reflexivity|now apply insert_subseteq].
Qed.

Lemma bind_raise {A B} (c : M A) (k : A -> M B) (w w' : world) (e : exn) :
  c w = (Raise e, w') -> bind c k w = (Raise e, w').
Proof. intros H. unfold bind. now rewrite H. Qed.

(** What the two editor tabs do to a session whose canonical frame is [df]:
    the outcome, the frame that is canonical afterwards, and that the page
    and the frames there were are left alone. *)
Lemma editors_run (inp : inputs) (w : world) (l : loc) (df : DataFrame) :
  sales_data w = Some l ->
  heap w !! l = Some df ->
  exists w',
    editors inp w
    = (if equals (in_master_edit inp df) df && equals (in_new_edit inp df) df
       then Ok tt else Raise RerunException, w')
    /\ canonical w'
       = Some (if equals (in_master_edit inp df) df then in_new_edit inp df
               else in_master_edit inp df)
    /\ (in_master_edit inp df = df -> in_new_edit inp df = df -> sales_data w' = Some l)
    /\ page w' = page w
    /\ heap w ⊆ heap w'.
Proof.
  intros Hsd Hl. unfold editors.
  destruct (equals (in_master_edit inp df) df) eqn:Hmaster.
  - apply equals_eq in Hmaster.
    destruct (editor_tab_unchanged _ w l df Hsd Hl Hmaster) as (w1 & E1 & Hsd1 & Hl1 & Hpg1 & Hsub1).
    rewrite (bind_ok _ _ _ _ _ E1). cbn [andb].
    destruct (equals (in_new_edit inp df) df) eqn:Hnew.
    + apply equals_eq in Hnew.
      destruct (editor_tab_unchanged _ w1 l df Hsd1 Hl1 Hnew) as (w2 & E2 & Hsd2 & Hl2 & Hpg2 & Hsub2).
      exists w2. split; [assumption|]. unfold canonical. rewrite Hsd2, Hl2, Hnew.
      repeat split; [congruence|now transitivity (heap w1)].
    + assert (Hdiff : in_new_edit inp df <> df)
        by (intros Heq; apply equals_eq in Heq; congruence).
      destruct (editor_tab_changed _ w1 l df Hsd1 Hl1 Hdiff) as (w2 & E2 & Hc2 & Hpg2 & Hsub2).
      exists w2. split; [assumption|]. split; [assumption|].
      split; [congruence|]. split; [congruence|now transitivity (heap w1)].
  - assert (Hdiff : in_master_edit inp df <> df)
      by (intros Heq; apply equals_eq in Heq; congruence).
    destruct (editor_tab_changed _ w l df Hsd Hl Hdiff) as (w1 & E1 & Hc1 & Hpg1 & Hsub1).
    rewrite (bind_raise _ _ _ _ _ E1). cbn [andb].
    exists w1. repeat split; try assumption. congruence.
Qed.

(** X8.  The two editor tabs of one run, on a session whose dataset is
    [df].  If "Data Editor" hands back a changed frame, that frame becomes the
    dataset and the run restarts, whatever "New Table" holds; if only "New
    Table" hands back a changed frame, that one becomes the dataset and the run
    restarts; if neither does, the dataset stays and the run goes on.  The page
    is untouched, and so is every frame there was. *)
Theorem first_changed_editor_wins (inp : inputs) (w : world) (df : DataFrame) :
  canonical w = Some df ->
  exists w',
    page w' = page w
    /\ heap w ⊆ heap w'
    /\ (in_master_edit inp df <> df ->
        editors inp w = (Raise RerunException, w')
        /\ canonical w' = Some (in_master_edit inp df))
    /\ (in_master_edit inp df = df -> in_new_edit inp df <> df ->
        editors inp w = (Raise RerunException, w')
        /\ canonical w' = Some (in_new_edit inp df))
    /\ (in_master_edit inp df = df -> in_new_edit inp df = df ->
        editors inp w = (Ok tt, w')
        /\ canonical w' = Some df /\ sales_data w' = sales_data w).
Proof.
  unfold canonical at 1. intros Hc.
  destruct (sales_data w) as [l|] eqn:Hsd; [|discriminate].
  destruct (editors_run inp w l df Hsd Hc) as (w' & E & Hc' & Hsd' & Hpg & Hsub).
  exists w'. split; [assumption|]. split; [assumption|]. rewrite E, Hc'.
  split; [|split].
  - intros Hdiff. destruct (equals (in_master_edit inp df) df) eqn:Hm;
      [now apply equals_eq in Hm|]. split; reflexivity.
  - intros Hsame Hdiff. rewrite Hsame, equals_refl. cbn [andb].
    destruct (equals (in_new_edit inp df) df) eqn:Hn; [now apply equals_eq in Hn|].
    split; reflexivity.
  - intros Hsame Hsame'. rewrite Hsame, Hsame', equals_refl. cbn [andb].
    split; [reflexivity|]. split; [reflexivity|]. now apply Hsd'.
Qed.

Lemma first_changed_editor_wins_witness :
  exists w',
    page w' = page (session_of three_rows)
    /\ heap (session_of three_rows) ⊆ heap w'
    /\ (in_master_edit (idle None) three_rows <> three_rows ->
        editors (idle None) (session_of three_rows) = (Raise RerunException, w')
        /\ canonical w' = Some (in_master_edit (idle None) three_rows))
    /\ (in_master_edit (idle None) three_rows = three_rows ->
        in_new_edit (idle None) three_rows <> three_rows ->
        editors (idle None) (session_of three_rows) = (Raise RerunException, w')
        /\ canonical w' = Some (in_new_edit (idle None) three_rows))
    /\ (in_master_edit (idle None) three_rows = three_rows ->
        in_new_edit (idle None) three_rows = three_rows ->
        editors (idle None) (session_of three_rows) = (Ok tt, w')
        /\ canonical w' = Some three_rows
        /\ sales_data w' = sales_data (session_of three_rows)).
Proof.
  apply (first_changed_editor_wins (idle None) (session_of three_rows) three_rows).
  reflexivity.
Defined.

(** ** A whole run of [main] *)

Lemma initialization_run (d : Draws) (w : world) :
  canonical_ok w ->
  exists l w1,
    session_state_initialization d w = (Ok tt, w1)
    /\ sales_data w1 = Some l
    /\ heap w1 !! l = Some (match canonical w with
                            | Some df => df
                            | None => new_sales_data d
                            end)
    /\ sales_frame (match canonical w with
                    | Some df => df
                    | None => new_sales_data d
                    end)
    /\ page w1 = page w
    /\ heap w ⊆ heap w1.
Proof.
  intros Hok. unfold session_state_initialization, canonical.
  destruct (sales_data w) as [l|] eqn:Hsd.
  - destruct (Hok l Hsd) as (df & Hl & Hdf). rewrite Hl.
    exists l, w. split; [reflexivity|]. split; [assumption|]. split; [assumption|].
    split; [assumption|]. split; reflexivity.
  - eexists _, _. split; [reflexivity|]. cbn [sales_data heap page].
    split; [reflexivity|]. split; [apply lookup_insert_eq|].
    split; [apply new_sales_data_frame|]. split; [reflexivity|].
    apply insert_subseteq, fresh_lookup.
Qed.

Lemma metrics_run (py_format : string -> Q -> string) (k : KPIs) (w : world) :
  metrics py_format k w
  = (Ok tt, {| heap := heap w; sales_data := sales_data w;
               page := page w ++ cards py_format k |}).
Proof.
  unfold metrics, bind, render, cards. cbn [heap sales_data page].
  now rewrite <- !app_assoc.
Qed.

Lemma tail_run (sort_values : list (string * Z) -> list (string * Z)) (view : DataFrame)
    (top : list (string * Z)) (export : bool) (w : world) :
  top_products sort_values 5 view = Ok top ->
  (let* top := lift (top_products sort_values 5 view) in
   let* _ := render (st_dataframe top) in
   if export then render (st_download_button view) else ret tt) w
  = (Ok tt, {| heap := heap w; sales_data := sales_data w;
               page := page w ++ st_dataframe top
                                 :: (if export then [st_download_button view] else []) |}).
Proof.
  intros Htop. unfold bind, lift, render, ret. rewrite Htop.
  destruct export; cbn [heap sales_data page]; rewrite <- ?app_assoc; [reflexivity|].
  now destruct w.
Qed.

Lemma top_products_of_view (sort_values : list (string * Z) -> list (string * Z)) (n : nat)
    (rows : list Row) :
  exists top, top_products sort_values n (view_of_rows rows) = Ok top.
Proof.
  destruct (view_sums (view_of_rows rows) (view_of_rows_frame rows)) as (sums & Hsums & _).
  unfold top_products. rewrite Hsums. now eexists.
Qed.

Section Run.

Variable py_format : string -> Q -> string.
Variable sort_values : list (string * Z) -> list (string * Z).

(** The filter pass of the script at hand, and the rows it lets through. *)
Variable filter_pass : inputs -> M loc.
Variable pred : inputs -> Row -> bool.

Hypothesis pass_run :
  forall inp w l rows,
    sales_data w = Some l ->
    heap w !! l = Some (frame_of_rows rows) ->
    exists v w',
      filter_pass inp w = (Ok v, w')
      /\ working (heap w) (Some l) (page w) v
           (view_of_rows (List.filter (pred inp) rows)) w'.

(** The run up to the tabs: the dataset is there, the cards are on the page. *)
Lemma main_to_tabs (inp : inputs) (w : world) :
  canonical_ok w ->
  exists l k w3,
    kpis (view_of_rows (List.filter (pred inp) (rows_of (dataset_of inp w)))) = Ok k
    /\ sales_frame (dataset_of inp w)
    /\ sales_data w3 = Some l
    /\ heap w3 !! l = Some (dataset_of inp w)
    /\ page w3 = page w ++ cards py_format k
    /\ heap w ⊆ heap w3
    /\ main py_format sort_values filter_pass inp w
       = (let* _ := (if in_show_raw_data inp then editors inp else ret tt) in
          let* top := lift (top_products sort_values 5
                              (view_of_rows (List.filter (pred inp)
                                               (rows_of (dataset_of inp w))))) in
          let* _ := render (st_dataframe top) in
          if in_export inp
          then render (st_download_button
                         (view_of_rows (List.filter (pred inp) (rows_of (dataset_of inp w)))))
          else ret tt) w3.
Proof.
  intros Hok. unfold dataset_of.
  destruct (initialization_run (in_draws inp) w Hok) as (l & w1 & E1 & Hsd1 & Hl1 & Hdf & Hpg1 & Hsub1).
  set (df := match canonical w with Some df => df | None => new_sales_data (in_draws inp) end) in *.
  pose proof Hl1 as Hrows. rewrite (sales_frame_rows df Hdf) in Hrows.
  destruct (pass_run inp w1 l (rows_of df) Hsd1 Hrows) as (v & w2 & E2 & W2).
  destruct W2 as (Hsd2 & Hpg2 & Hsub2 & Hnew2 & Hv2).
  set (view := view_of_rows (List.filter (pred inp) (rows_of df))) in *.
  destruct (kpis_view (List.filter (pred inp) (rows_of df))
              (map (fun r => Units_Sold r * Unit_Price r) (List.filter (pred inp) (rows_of df))))
    as (k & Hk & _).
  fold (view_of_rows (List.filter (pred inp) (rows_of df))) in Hk. fold view in Hk.
  exists l, k, {| heap := heap w2; sales_data := sales_data w2;
                  page := page w2 ++ cards py_format k |}.
  split; [assumption|]. split; [assumption|]. cbn [sales_data heap page].
  split; [assumption|]. split; [eapply lookup_weaken; eassumption|].
  split; [congruence|]. split; [now transitivity (heap w1)|].
  unfold main. rewrite (bind_ok _ _ _ _ _ E1), (bind_ok _ _ _ _ _ E2).
  rewrite (bind_ok _ _ w2 w2 view) by (unfold read; now rewrite Hv2).
  rewrite (bind_ok _ _ w2 w2 k) by (unfold lift; now rewrite Hk).
  rewrite (bind_ok _ _ _ _ _ (metrics_run py_format k w2)). reflexivity.
Qed.

(** The whole run: how it ends, the dataset it leaves, and the page. *)
Lemma main_run (inp : inputs) (w : world) :
  canonical_ok w ->
  exists k top w',
    kpis (view_of_rows (List.filter (pred inp) (rows_of (dataset_of inp w)))) = Ok k
    /\ top_products sort_values 5
         (view_of_rows (List.filter (pred inp) (rows_of (dataset_of inp w)))) = Ok top
    /\ main py_format sort_values filter_pass inp w
       = (if in_show_raw_data inp
             && negb (equals (in_master_edit inp (dataset_of inp w)) (dataset_of inp w)
                      && equals (in_new_edit inp (dataset_of inp w)) (dataset_of inp w))
          then Raise RerunException else Ok tt, w')
    /\ canonical w'
       = Some (if in_show_raw_data inp
               then if equals (in_master_edit inp (dataset_of inp w)) (dataset_of inp w)
                    then in_new_edit inp (dataset_of inp w)
                    else in_master_edit inp (dataset_of inp w)
               else dataset_of inp w)
    /\ page w'
       = page w ++ cards py_format k
         ++ (if in_show_raw_data inp
                && negb (equals (in_master_edit inp (dataset_of inp w)) (dataset_of inp w)
                         && equals (in_new_edit inp (dataset_of inp w)) (dataset_of inp w))
             then []
             else st_dataframe top
                  :: (if in_export inp
                      then [st_download_button
                              (view_of_rows (List.filter (pred inp)
                                               (rows_of (dataset_of inp w))))]
                      else []))
    /\ heap w ⊆ heap w'.
Proof.
  intros Hok.
  destruct (main_to_tabs inp w Hok) as (l & k & w3 & Hk & Hdf & Hsd3 & Hl3 & Hpg3 & Hsub3 & ->).
  set (df := dataset_of inp w) in *.
  set (view := view_of_rows (List.filter (pred inp) (rows_of df))) in *.
  destruct (top_products_of_view sort_values 5 (List.filter (pred inp) (rows_of df)))
    as (top & Htop).
  fold view in Htop. exists k, top.
  destruct (in_show_raw_data inp); cbn [andb].
  - destruct (editors_run inp w3 l df Hsd3 Hl3) as (w4 & E4 & Hc4 & _ & Hpg4 & Hsub4).
    destruct (equals (in_master_edit inp df) df && equals (in_new_edit inp df) df) eqn:Hb;
      cbn [negb].
    + rewrite (bind_ok _ _ _ _ _ E4), (tail_run _ _ _ _ _ Htop).
      eexists. split; [assumption|]. split; [assumption|]. split; [reflexivity|].
      unfold canonical in *. cbn [sales_data heap page].
      split; [assumption|]. split; [|now transitivity (heap w3)].
      rewrite Hpg4, Hpg3, <- app_assoc. reflexivity.
    + rewrite (bind_raise _ _ _ _ _ E4).
      exists w4. split; [assumption|]. split; [assumption|]. split; [reflexivity|].
      split; [assumption|]. split; [|now transitivity (heap w3)].
      rewrite Hpg4, Hpg3, app_nil_r. reflexivity.
  - rewrite (bind_ok _ _ w3 w3 tt) by reflexivity. rewrite (tail_run _ _ _ _ _ Htop).
    eexists. split; [assumption|]. split; [assumption|]. split; [reflexivity|].
    unfold canonical. cbn [sales_data heap page]. rewrite Hsd3.
    split; [assumption|]. split; [|assumption].
    rewrite Hpg3, <- app_assoc. reflexivity.
Qed.

End Run.

Lemma app_pass_run (inp : inputs) (w : world) (l : loc) (rows : list Row) :
  sales_data w = Some l ->
  heap w !! l = Some (frame_of_rows rows) ->
  exists v w',
    App.filter_pass inp w = (Ok v, w')
    /\ working (heap w) (Some l) (page w) v
         (view_of_rows (List.filter (passes (in_regions inp) (status_filter inp)) rows)) w'.
Proof. apply app_data_processing_run. Qed.

Lemma no_auth_pass_run (inp : inputs) (w : world) (l : loc) (rows : list Row) :
  sales_data w = Some l ->
  heap w !! l = Some (frame_of_rows rows) ->
  exists v w',
    AppNoAuth.filter_pass inp w = (Ok v, w')
    /\ working (heap w) (Some l) (page w) v
         (view_of_rows
            (List.filter (passes_no_auth (in_products inp) (in_regions inp) (status_filter inp))
               rows)) w'.
Proof. apply no_auth_data_processing_run. Qed.

Lemma dataset_of_frame (inp : inputs) (w : world) :
  canonical_ok w -> sales_frame (dataset_of inp w).
Proof.
  intros Hok. destruct (initialization_run (in_draws inp) w Hok) as (_ & _ & _ & _ & _ & H & _).
  exact H.
Qed.

Lemma no_edit_equals (inp : inputs) (df : DataFrame) :
  no_edit inp df ->
  in_show_raw_data inp
  && negb (equals (in_master_edit inp df) df && equals (in_new_edit inp df) df) = false
  /\ (if in_show_raw_data inp
      then if equals (in_master_edit inp df) df then in_new_edit inp df
           else in_master_edit inp df
      else df) = df.
Proof.
  intros [-> | [Hm Hn]]; [split; reflexivity|].
  rewrite Hm, Hn, equals_refl. destruct (in_show_raw_data inp); split; reflexivity.
Qed.

(** X9.  A run of [main], in either script, in which no editor hands back
    a changed frame (the tabs are hidden, or the user edited nothing), on a
    session whose dataset, if it has one, is well formed: it ends without any
    exception; the dataset is the one the session had, or the seed if it had
    none, and is left as it is; and what the run adds to the page is the four
    KPI cards of the filtered view, its top-5 table and, when the export button
    was clicked, the download of that view. *)
Theorem run_without_edits (py_format : string -> Q -> string)
    (sort_values : list (string * Z) -> list (string * Z)) (inp : inputs) (w : world) :
  canonical_ok w ->
  no_edit inp (dataset_of inp w) ->
  (exists view k top w',
     filtered_view (App.filter_pass inp) (dataset_of inp w) = Ok view
     /\ kpis view = Ok k
     /\ top_products sort_values 5 view = Ok top
     /\ App.main py_format sort_values inp w = (Ok tt, w')
     /\ canonical w' = Some (dataset_of inp w)
     /\ page w' = page w ++ cards py_format k
                  ++ st_dataframe top
                     :: (if in_export inp then [st_download_button view] else []))
  /\ (exists view k top w',
     filtered_view (AppNoAuth.filter_pass inp) (dataset_of inp w) = Ok view
     /\ kpis view = Ok k
     /\ top_products sort_values 5 view = Ok top
     /\ AppNoAuth.main py_format sort_values inp w = (Ok tt, w')
     /\ canonical w' = Some (dataset_of inp w)
     /\ page w' = page w ++ cards py_format k
                  ++ st_dataframe top
                     :: (if in_export inp then [st_download_button view] else [])).
Proof.
  intros Hok Hno. pose proof (dataset_of_frame inp w Hok) as Hdf.
  destruct (no_edit_equals inp _ Hno) as [Hb Hc]. split.
  - destruct (main_run py_format sort_values App.filter_pass _ app_pass_run inp w Hok)
      as (k & top & w' & Hk & Htop & E & Hc' & Hpg & _).
    rewrite Hb in E, Hpg. rewrite Hc in Hc'.
    eexists _, k, top, w'. split; [now apply app_filtered_view|]. repeat split; assumption.
  - destruct (main_run py_format sort_values AppNoAuth.filter_pass _ no_auth_pass_run inp w Hok)
      as (k & top & w' & Hk & Htop & E & Hc' & Hpg & _).
    rewrite Hb in E, Hpg. rewrite Hc in Hc'.
    eexists _, k, top, w'. split; [now apply no_auth_filtered_view|]. repeat split; assumption.
Qed.

Lemma empty_session_ok : canonical_ok empty_session.
Proof. intros l H. discriminate H. Qed.

Lemma run_without_edits_witness :
  let inp := idle (Some true) in
  let w := empty_session in
  (exists view k top w',
     filtered_view (App.filter_pass inp) (dataset_of inp w) = Ok view
     /\ kpis view = Ok k
     /\ top_products (fun l => l) 5 view = Ok top
     /\ App.main (fun _ _ => "") (fun l => l) inp w = (Ok tt, w')
     /\ canonical w' = Some (dataset_of inp w)
     /\ page w' = page w ++ cards (fun _ _ => "") k
                  ++ st_dataframe top
                     :: (if in_export inp then [st_download_button view] else []))
  /\ (exists view k top w',
     filtered_view (AppNoAuth.filter_pass inp) (dataset_of inp w) = Ok view
     /\ kpis view = Ok k
     /\ top_products (fun l => l) 5 view = Ok top
     /\ AppNoAuth.main (fun _ _ => "") (fun l => l) inp w = (Ok tt, w')
     /\ canonical w' = Some (dataset_of inp w)
     /\ page w' = page w ++ cards (fun _ _ => "") k
                  ++ st_dataframe top
                     :: (if in_export inp then [st_download_button view] else [])).
Proof.
  apply (run_without_edits (fun _ _ => "") (fun l => l) (idle (Some true)) empty_session).
  - exact empty_session_ok.
  - right. split; reflexivity.
Defined.

(** X10.  A run of [main], in either script, with the editor tabs shown
    and a changed frame handed back by one of them: the run ends in a rerun
    after the four KPI cards, so that neither the top-5 table nor the export is
    reached; the dataset of the session is then the frame of "Data Editor" if
    that one changed, and of "New Table" otherwise. *)
Theorem run_with_edit (py_format : string -> Q -> string)
    (sort_values : list (string * Z) -> list (string * Z)) (inp : inputs) (w : world) :
  canonical_ok w ->
  in_show_raw_data inp = true ->
  in_master_edit inp (dataset_of inp w) <> dataset_of inp w
  \/ in_new_edit inp (dataset_of inp w) <> dataset_of inp w ->
  (exists view k w',
     filtered_view (App.filter_pass inp) (dataset_of inp w) = Ok view
     /\ kpis view = Ok k
     /\ App.main py_format sort_values inp w = (Raise RerunException, w')
     /\ page w' = page w ++ cards py_format k
     /\ canonical w'
        = Some (if equals (in_master_edit inp (dataset_of inp w)) (dataset_of inp w)
                then in_new_edit inp (dataset_of inp w)
                else in_master_edit inp (dataset_of inp w)))
  /\ (exists view k w',
     filtered_view (AppNoAuth.filter_pass inp) (dataset_of inp w) = Ok view
     /\ kpis view = Ok k
     /\ AppNoAuth.main py_format sort_values inp w = (Raise RerunException, w')
     /\ page w' = page w ++ cards py_format k
     /\ canonical w'
        = Some (if equals (in_master_edit inp (dataset_of inp w)) (dataset_of inp w)
                then in_new_edit inp (dataset_of inp w)
                else in_master_edit inp (dataset_of inp w))).
Proof.
  intros Hok Hshow Hedit. pose proof (dataset_of_frame inp w Hok) as Hdf.
  assert (Hb : equals (in_master_edit inp (dataset_of inp w)) (dataset_of inp w)
               && equals (in_new_edit inp (dataset_of inp w)) (dataset_of inp w) = false).
  { apply andb_false_iff.
    destruct Hedit as [Hm | Hn]; [left | right]; apply not_true_is_false;
      intros Heq; now apply equals_eq in Heq. }
  split.
  - destruct (main_run py_format sort_values App.filter_pass _ app_pass_run inp w Hok)
      as (k & top & w' & Hk & Htop & E & Hc' & Hpg & _).
    rewrite Hshow, Hb in E, Hpg. rewrite Hshow in Hc'. cbn [andb negb] in E, Hpg.
    rewrite app_nil_r in Hpg.
    eexists _, k, w'. split; [now apply app_filtered_view|]. repeat split; assumption.
  - destruct (main_run py_format sort_values AppNoAuth.filter_pass _ no_auth_pass_run inp w Hok)
      as (k & top & w' & Hk & Htop & E & Hc' & Hpg & _).
    rewrite Hshow, Hb in E, Hpg. rewrite Hshow in Hc'. cbn [andb negb] in E, Hpg.
    rewrite app_nil_r in Hpg.
    eexists _, k, w'. split; [now apply no_auth_filtered_view|]. repeat split; assumption.
Qed.

Lemma session_of_ok (df : DataFrame) : sales_frame df -> canonical_ok (session_of df).
Proof.
  intros Hdf l [= <-]. exists df. split; [apply session_of_lookup|assumption].
Qed.

Lemma run_with_edit_witness :
  let inp := delete_all_rows in
  let w := session_of three_rows in
  (exists view k w',
     filtered_view (App.filter_pass inp) (dataset_of inp w) = Ok view
     /\ kpis view = Ok k
     /\ App.main (fun _ _ => "") (fun l => l) inp w = (Raise RerunException, w')
     /\ page w' = page w ++ cards (fun _ _ => "") k
     /\ canonical w'
        = Some (if equals (in_master_edit inp (dataset_of inp w)) (dataset_of inp w)
                then in_new_edit inp (dataset_of inp w)
                else in_master_edit inp (dataset_of inp w)))
  /\ (exists view k w',
     filtered_view (AppNoAuth.filter_pass inp) (dataset_of inp w) = Ok view
     /\ kpis view = Ok k
     /\ AppNoAuth.main (fun _ _ => "") (fun l => l) inp w = (Raise RerunException, w')
     /\ page w' = page w ++ cards (fun _ _ => "") k
     /\ canonical w'
        = Some (if equals (in_master_edit inp (dataset_of inp w)) (dataset_of inp w)
                then in_new_edit inp (dataset_of inp w)
                else in_master_edit inp (dataset_of inp w))).
Proof.
  apply (run_with_edit (fun _ _ => "") (fun l => l) delete_all_rows (session_of three_rows)).
  - apply session_of_ok, three_rows_sales_frame.
  - reflexivity.
  - left. discriminate.
Defined.

(** X11.  No run of [main], in either script and whatever the user does,
    changes or removes a frame the session already held: the filter pass works
    on a copy, and an edit makes a new frame the dataset instead of changing
    the old one.  Nor does a run of app.py's top level. *)
Theorem run_keeps_frames (py_format : string -> Q -> string)
    (sort_values : list (string * Z) -> list (string * Z)) (inp : inputs) (w : world) :
  canonical_ok w ->
  heap w ⊆ heap (snd (App.main py_format sort_values inp w))
  /\ heap w ⊆ heap (snd (AppNoAuth.main py_format sort_values inp w))
  /\ heap w ⊆ heap (snd (App.script py_format sort_values inp w)).
Proof.
  intros Hok.
  assert (Happ : heap w ⊆ heap (snd (App.main py_format sort_values inp w))).
  { destruct (main_run py_format sort_values App.filter_pass _ app_pass_run inp w Hok)
      as (k & top & w' & _ & _ & E & _ & _ & Hsub).
    unfold App.main. now rewrite E. }
  split; [assumption|]. split.
  - destruct (main_run py_format sort_values AppNoAuth.filter_pass _ no_auth_pass_run inp w Hok)
      as (k & top & w' & _ & _ & E & _ & _ & Hsub).
    unfold AppNoAuth.main. now rewrite E.
  - unfold App.script. destruct (in_authentication_status inp) as [[|]|]; [assumption| |];
      reflexivity.
Qed.

Lemma run_keeps_frames_witness :
  heap (session_of three_rows)
  ⊆ heap (snd (App.main (fun _ _ => "") (fun l => l) delete_all_rows (session_of three_rows)))
  /\ heap (session_of three_rows)
     ⊆ heap (snd (AppNoAuth.main (fun _ _ => "") (fun l => l) delete_all_rows
                    (session_of three_rows)))
  /\ heap (session_of three_rows)
     ⊆ heap (snd (App.script (fun _ _ => "") (fun l => l) delete_all_rows
                    (session_of three_rows))).
Proof.
  apply (run_keeps_frames (fun _ _ => "") (fun l => l) delete_all_rows (session_of three_rows)).
  apply session_of_ok, three_rows_sales_frame.
Defined.

Lemma page_reset_ok (w : world) :
  canonical_ok w -> canonical_ok {| heap := heap w; sales_data := sales_data w; page := [] |}.
Proof. intros Hok. exact Hok. Qed.

(** X12.  Once app_no_auth.py has run, whatever the user did, the session
    holds a dataset, and it is a well-formed sales frame; and so it is after
    every run of app.py in which the user is logged in. *)
Theorem dataset_present_after_run (py_format : string -> Q -> string)
    (sort_values : list (string * Z) -> list (string * Z)) (inp : inputs) (w : world) :
  plausible inp ->
  (reachable (AppNoAuth.main py_format sort_values) w ->
   exists df,
     canonical (run (AppNoAuth.main py_format sort_values) inp w) = Some df /\ sales_frame df)
  /\ (reachable (App.script py_format sort_values) w ->
      in_authentication_status inp = Some true ->
      exists df,
        canonical (run (App.script py_format sort_values) inp w) = Some df /\ sales_frame df).
Proof.
  intros Hinp. split.
  - intros Hreach.
    pose proof (reachable_no_auth _ _ _ (reach_run _ w inp Hreach Hinp)) as Hok'.
    pose proof (page_reset_ok w (reachable_no_auth _ _ _ Hreach)) as Hok.
    unfold run in *.
    destruct (main_run py_format sort_values AppNoAuth.filter_pass _ no_auth_pass_run inp _ Hok)
      as (k & top & w' & _ & _ & E & Hc & _).
    unfold AppNoAuth.main in *. rewrite E in *. cbn [snd] in *.
    unfold canonical in *. destruct (sales_data w') as [l|] eqn:Hsd; [|discriminate].
    destruct (Hok' l Hsd) as (df & Hl & Hdf). exists df. now split.
  - intros Hreach Hauth.
    pose proof (reachable_app _ _ _ (reach_run _ w inp Hreach Hinp)) as Hok'.
    pose proof (page_reset_ok w (reachable_app _ _ _ Hreach)) as Hok.
    unfold run, App.script in *. rewrite Hauth in *.
    destruct (main_run py_format sort_values App.filter_pass _ app_pass_run inp _ Hok)
      as (k & top & w' & _ & _ & E & Hc & _).
    unfold App.main in *. rewrite E in *. cbn [snd] in *.
    unfold canonical in *. destruct (sales_data w') as [l|] eqn:Hsd; [|discriminate].
    destruct (Hok' l Hsd) as (df & Hl & Hdf). exists df. now split.
Qed.

Lemma dataset_present_after_run_witness :
  exists df,
    canonical (run (AppNoAuth.main (fun _ _ => "") (fun l => l)) (idle None) empty_session)
    = Some df
    /\ sales_frame df.
Proof.
  apply (proj1 (dataset_present_after_run (fun _ _ => "") (fun l => l) (idle None)
                  empty_session (idle_plausible None))).
  apply reach_start.
Defined.

(** ** generate_keys.py *)

(** X13.  generate_keys.py ends normally only when the hasher could be made
    and both passwords hashed; it has then printed, for jsmith, the hash of
    user123 and, for rdoe, the hash of password456, and nothing on the error
    stream.  In every other case it exits with status 1 after four lines on the
    error stream, the first of which carries the message of the exception.  If
    the hasher could be made, the line announcing success is printed whether the
    hashing then succeeds or not. *)
Theorem generate_keys_outcome (Hasher : GenerateKeys.attempt (string -> GenerateKeys.attempt string)) :
  match GenerateKeys.exit_code (GenerateKeys.script Hasher) with
  | None =>
      exists hash hashed0 hashed1,
        Hasher = GenerateKeys.Returned hash
        /\ hash "user123" = GenerateKeys.Returned hashed0
        /\ hash "password456" = GenerateKeys.Returned hashed1
        /\ GenerateKeys.stderr (GenerateKeys.script Hasher) = []
        /\ GenerateKeys.stdout (GenerateKeys.script Hasher)
           = [ "---"; "Hashed Passwords Generated Successfully!";
               "Copy the hashed passwords below and paste them into your config.yaml file.";
               ""; "For user 'jsmith':"; ("  password: '" ++ hashed0 ++ "'")%string;
               ""; "For user 'rdoe':"; ("  password: '" ++ hashed1 ++ "'")%string; "---" ]
  | Some code =>
      code = 1
      /\ exists e,
           (Hasher = GenerateKeys.Raised e
            \/ exists hash,
                 Hasher = GenerateKeys.Returned hash
                 /\ (hash "user123" = GenerateKeys.Raised e
                     \/ hash "password456" = GenerateKeys.Raised e))
           /\ GenerateKeys.stderr (GenerateKeys.script Hasher)
              = [ (String (Ascii.ascii_of_nat 10) "An error occurred: " ++ e)%string;
                  "This script is designed for streamlit-authenticator v0.3.0 and newer.";
                  "Please upgrade your library by running the following command in your terminal:";
                  "pip install --upgrade streamlit-authenticator" ]
  end
  /\ forall hash,
       Hasher = GenerateKeys.Returned hash ->
       In "Hashed Passwords Generated Successfully!"
          (GenerateKeys.stdout (GenerateKeys.script Hasher)).
Proof.
  unfold GenerateKeys.script. destruct Hasher as [hash|e]; cbn [nth].
  - destruct (hash "user123") as [h0|e0] eqn:H0.
    + destruct (hash "password456") as [h1|e1] eqn:H1; cbn.
      * split; [|intros ? _; tauto]. exists hash, h0, h1.
        repeat split; first [assumption | reflexivity].
      * split; [|intros ? _; tauto]. split; [reflexivity|]. exists e1.
        split; [|reflexivity]. right. exists hash. split; [reflexivity|now right].
    + cbn. split; [|intros ? _; tauto]. split; [reflexivity|]. exists e0.
      split; [|reflexivity]. right. exists hash. split; [reflexivity|now left].
  - cbn. split; [|intros ? [=]]. split; [reflexivity|]. exists e. split; [now left|reflexivity].
Qed.
